(** * Voice-to-todo app: the task store and the recording controller

    A shallow embedding of the React component [VoiceToTodoApp]
    ([src/app/index.tsx], and the handlers of its earlier revision that
    differ). The handlers are computations in a small state and
    exception monad over the component's state; everything outside the
    component (the persistence and transcription services, the audio
    runtime, the clock) answers through an environment record, and every
    request sent out is logged. *)

From Stdlib Require Import List ZArith NArith Bool String Ascii Lia.
From Stdlib Require DecimalString DecimalZ.
Import ListNotations.

Set Implicit Arguments.

(** ** JavaScript built-ins used by the component *)

Module JS.

#[local] Open Scope Z_scope.

(** A JavaScript string is a sequence of UTF-16 code units. *)
Definition jsstring := list N.

(** A literal of the source, written with ASCII characters. *)
Definition str (s : string) : jsstring :=
  map N_of_ascii (list_ascii_of_string s).

Arguments str : simpl never.

Definition eqb (a b : jsstring) : bool :=
  if list_eq_dec N.eq_dec a b then true else false.

(** ECMAScript WhiteSpace and LineTerminator code points: what
    [String.prototype.trim] strips. *)
Definition isWhiteSpace (c : N) : bool :=
  existsb (N.eqb c)
    [9; 10; 11; 12; 13; 32; 160; 5760; 8232; 8233; 8239; 8287; 12288; 65279]%N
  || ((8192 <=? c) && (c <=? 8202))%N.

Fixpoint trimStart (s : jsstring) : jsstring :=
  match s with
  | [] => []
  | c :: s' => if isWhiteSpace c then trimStart s' else s
  end.

Definition trimEnd (s : jsstring) : jsstring := rev (trimStart (rev s)).

Definition trim (s : jsstring) : jsstring := trimEnd (trimStart s).

(** ToBoolean on a string: only the empty string is falsy. *)
Definition truthy_string (s : jsstring) : bool :=
  match s with [] => false | _ :: _ => true end.

(** ToBoolean on a number (NaN is not represented): only zero is falsy. *)
Definition truthy_number (n : Z) : bool := negb (n =? 0).

(** ToString on an integral number, as in a template literal. *)
Definition number_toString (n : Z) : jsstring :=
  str (DecimalString.NilEmpty.string_of_int (Z.to_int n)).

(** [n] written with exactly [w] decimal digits (0 <= n < 10^w). *)
Fixpoint digits (w : nat) (n : Z) : jsstring :=
  match w with
  | O => []
  | S w' => digits w' (n / 10) ++ [Z.to_N (48 + n mod 10)]
  end.

(** Year, month and day of a day count from 1970-01-01 (proleptic
    Gregorian calendar). *)
Definition civil_from_days (days : Z) : Z * Z * Z :=
  let z := days + 719468 in
  let era := z / 146097 in
  let doe := z - era * 146097 in
  let yoe := (doe - doe / 1460 + doe / 36524 - doe / 146096) / 365 in
  let doy := doe - (365 * yoe + yoe / 4 - yoe / 100) in
  let mp := (5 * doy + 2) / 153 in
  let d := doy - (153 * mp + 2) / 5 + 1 in
  let m := if mp <? 10 then mp + 3 else mp - 9 in
  let y := yoe + era * 400 + (if m <=? 2 then 1 else 0) in
  (y, m, d).

(** [new Date(t).toISOString()] for a time value [t] in milliseconds. *)
Definition toISOString (t : Z) : jsstring :=
  let days := t / 86400000 in
  let ms := t mod 86400000 in
  let '(y, m, d) := civil_from_days days in
  let year :=
    if (0 <=? y) && (y <=? 9999) then digits 4 y
    else (if y <? 0 then str "-" else str "+") ++ digits 6 (Z.abs y) in
  year ++ str "-" ++ digits 2 m ++ str "-" ++ digits 2 d ++ str "T"
    ++ digits 2 (ms / 3600000) ++ str ":" ++ digits 2 ((ms / 60000) mod 60)
    ++ str ":" ++ digits 2 ((ms / 1000) mod 60) ++ str "."
    ++ digits 3 (ms mod 1000) ++ str "Z".

Arguments toISOString : simpl never.
Arguments number_toString : simpl never.

End JS.

Import JS.

#[local] Open Scope Z_scope.

(** ** Data model *)

(** [interface Task]. Optional fields are [option]s; the two flags are
    numbers, as the source declares them. *)
Record Task := mkTask {
  id : jsstring;
  user_id : jsstring;
  title : jsstring;
  description : option jsstring;
  completed : Z;
  deadline : option jsstring;
  reminder_enabled : Z;
  reminder_time : option jsstring;
  created_at : jsstring;
  updated_at : jsstring
}.

(** The signed-in user, of which the component reads only [user.id]. *)
Record User := mkUser { uid : jsstring }.

(** The object literal handed to [blink.db.tasks.update]: a field is
    absent ([None]) or present; a present deadline may be [null]. *)
Record Patch := mkPatch {
  p_title : option jsstring;
  p_completed : option Z;
  p_deadline : option (option jsstring);
  p_updated_at : option jsstring
}.

(** [{ ...t, completed: c }] *)
Definition with_completed (t : Task) (c : Z) : Task :=
  mkTask (id t) (user_id t) (title t) (description t) c (deadline t)
    (reminder_enabled t) (reminder_time t) (created_at t) (updated_at t).

(** [{ ...t, title: ti, deadline: d }] *)
Definition with_title_deadline (t : Task) (ti d : jsstring) : Task :=
  mkTask (id t) (user_id t) ti (description t) (completed t) (Some d)
    (reminder_enabled t) (reminder_time t) (created_at t) (updated_at t).

(** ** The outside world *)

Inductive Exn :=
| TypeError
| Rejected (reason : jsstring).

Inductive Result (A : Type) :=
| Ok (a : A)
| Throw (e : Exn).

Arguments Ok {A} a.
Arguments Throw {A} e.

Inductive Platform := web | native.

Inductive PermissionStatus := granted | denied | undetermined.

(** A request sent to an external service. *)
Inductive Call :=
| DbList (owner : jsstring)
| DbCreate (draft : Task)
| DbUpdate (key : jsstring) (patch : Patch)
| DbDelete (key : jsstring)
| AiTranscribe (audio language : jsstring)
| FsRead (uri : jsstring).

(** What the world outside the component answers during one run of a
    handler. Each handler calls each service at most once; the clock is
    read up to three times, [Date_now k] being the k-th reading.
    [mediaDevices_getUserMedia] is [None] where the browser has no such
    function; [MediaRecorder_result] is how [new MediaRecorder(stream)]
    followed by [mediaRecorder.start()] ends. *)
Record Env := mkEnv {
  Platform_OS : Platform;
  Date_now : nat -> Z;
  Math_random_index : nat -> nat;
  db_tasks_list : jsstring -> Result (list Task);
  db_tasks_create : Task -> Result Task;
  db_tasks_update : jsstring -> Patch -> Result unit;
  db_tasks_delete : jsstring -> Result unit;
  ai_transcribeAudio : jsstring -> Result jsstring;
  FileSystem_readAsStringAsync : jsstring -> Result jsstring;
  Audio_requestPermissionsAsync : Result PermissionStatus;
  Audio_setAudioModeAsync : Result unit;
  Audio_Recording_createAsync : Result unit;
  recording_stopAndUnloadAsync : Result unit;
  recording_getURI : option jsstring;
  mediaDevices_getUserMedia : option (Result unit);
  reader_result_base64 : jsstring;
  MediaRecorder_result : Result unit
}.

(** The component's state ([useState] cells, the timer ref and the
    [window.currentMediaRecorder] global), the resources alive in the
    runtime (intervals, native sessions, browser recorders, named by
    handles, and the number of media streams acquired and not stopped),
    and what the component has emitted so far. *)
Record World := mkWorld {
  tasks : list Task;
  isRecording : bool;
  recording : option nat;
  isTranscribing : bool;
  user : option User;
  editingTask : option Task;
  editModalVisible : bool;
  editTitle : jsstring;
  editDeadline : jsstring;
  recordingDuration : Z;
  recordingTimer : option nat;
  currentMediaRecorder : option nat;
  intervals : list nat;
  sessions : list nat;
  mediaRecorders : list nat;
  next_handle : nat;
  alerts : list (jsstring * jsstring);
  console_errors : list jsstring;
  calls : list Call;
  open_streams : nat
}.

Definition upd_tasks (f : list Task -> list Task) (w : World) : World :=
  mkWorld (f (tasks w)) (isRecording w) (recording w) (isTranscribing w)
    (user w) (editingTask w) (editModalVisible w) (editTitle w)
    (editDeadline w) (recordingDuration w) (recordingTimer w)
    (currentMediaRecorder w) (intervals w) (sessions w) (mediaRecorders w)
    (next_handle w) (alerts w) (console_errors w) (calls w) (open_streams w).

Definition upd_isRecording (f : bool -> bool) (w : World) : World :=
  mkWorld (tasks w) (f (isRecording w)) (recording w) (isTranscribing w)
    (user w) (editingTask w) (editModalVisible w) (editTitle w)
    (editDeadline w) (recordingDuration w) (recordingTimer w)
    (currentMediaRecorder w) (intervals w) (sessions w) (mediaRecorders w)
    (next_handle w) (alerts w) (console_errors w) (calls w) (open_streams w).

Definition upd_recording (f : option nat -> option nat) (w : World) : World :=
  mkWorld (tasks w) (isRecording w) (f (recording w)) (isTranscribing w)
    (user w) (editingTask w) (editModalVisible w) (editTitle w)
    (editDeadline w) (recordingDuration w) (recordingTimer w)
    (currentMediaRecorder w) (intervals w) (sessions w) (mediaRecorders w)
    (next_handle w) (alerts w) (console_errors w) (calls w) (open_streams w).

Definition upd_isTranscribing (f : bool -> bool) (w : World) : World :=
  mkWorld (tasks w) (isRecording w) (recording w) (f (isTranscribing w))
    (user w) (editingTask w) (editModalVisible w) (editTitle w)
    (editDeadline w) (recordingDuration w) (recordingTimer w)
    (currentMediaRecorder w) (intervals w) (sessions w) (mediaRecorders w)
    (next_handle w) (alerts w) (console_errors w) (calls w) (open_streams w).

Definition upd_user (f : option User -> option User) (w : World) : World :=
  mkWorld (tasks w) (isRecording w) (recording w) (isTranscribing w)
    (f (user w)) (editingTask w) (editModalVisible w) (editTitle w)
    (editDeadline w) (recordingDuration w) (recordingTimer w)
    (currentMediaRecorder w) (intervals w) (sessions w) (mediaRecorders w)
    (next_handle w) (alerts w) (console_errors w) (calls w) (open_streams w).

Definition upd_editingTask (f : option Task -> option Task) (w : World) : World :=
  mkWorld (tasks w) (isRecording w) (recording w) (isTranscribing w)
    (user w) (f (editingTask w)) (editModalVisible w) (editTitle w)
    (editDeadline w) (recordingDuration w) (recordingTimer w)
    (currentMediaRecorder w) (intervals w) (sessions w) (mediaRecorders w)
    (next_handle w) (alerts w) (console_errors w) (calls w) (open_streams w).

Definition upd_editModalVisible (f : bool -> bool) (w : World) : World :=
  mkWorld (tasks w) (isRecording w) (recording w) (isTranscribing w)
    (user w) (editingTask w) (f (editModalVisible w)) (editTitle w)
    (editDeadline w) (recordingDuration w) (recordingTimer w)
    (currentMediaRecorder w) (intervals w) (sessions w) (mediaRecorders w)
    (next_handle w) (alerts w) (console_errors w) (calls w) (open_streams w).

Definition upd_editTitle (f : jsstring -> jsstring) (w : World) : World :=
  mkWorld (tasks w) (isRecording w) (recording w) (isTranscribing w)
    (user w) (editingTask w) (editModalVisible w) (f (editTitle w))
    (editDeadline w) (recordingDuration w) (recordingTimer w)
    (currentMediaRecorder w) (intervals w) (sessions w) (mediaRecorders w)
    (next_handle w) (alerts w) (console_errors w) (calls w) (open_streams w).

Definition upd_editDeadline (f : jsstring -> jsstring) (w : World) : World :=
  mkWorld (tasks w) (isRecording w) (recording w) (isTranscribing w)
    (user w) (editingTask w) (editModalVisible w) (editTitle w)
    (f (editDeadline w)) (recordingDuration w) (recordingTimer w)
    (currentMediaRecorder w) (intervals w) (sessions w) (mediaRecorders w)
    (next_handle w) (alerts w) (console_errors w) (calls w) (open_streams w).

Definition upd_recordingDuration (f : Z -> Z) (w : World) : World :=
  mkWorld (tasks w) (isRecording w) (recording w) (isTranscribing w)
    (user w) (editingTask w) (editModalVisible w) (editTitle w)
    (editDeadline w) (f (recordingDuration w)) (recordingTimer w)
    (currentMediaRecorder w) (intervals w) (sessions w) (mediaRecorders w)
    (next_handle w) (alerts w) (console_errors w) (calls w) (open_streams w).

Definition upd_recordingTimer (f : option nat -> option nat) (w : World) : World :=
  mkWorld (tasks w) (isRecording w) (recording w) (isTranscribing w)
    (user w) (editingTask w) (editModalVisible w) (editTitle w)
    (editDeadline w) (recordingDuration w) (f (recordingTimer w))
    (currentMediaRecorder w) (intervals w) (sessions w) (mediaRecorders w)
    (next_handle w) (alerts w) (console_errors w) (calls w) (open_streams w).

Definition upd_currentMediaRecorder (f : option nat -> option nat) (w : World) : World :=
  mkWorld (tasks w) (isRecording w) (recording w) (isTranscribing w)
    (user w) (editingTask w) (editModalVisible w) (editTitle w)
    (editDeadline w) (recordingDuration w) (recordingTimer w)
    (f (currentMediaRecorder w)) (intervals w) (sessions w)
    (mediaRecorders w) (next_handle w) (alerts w) (console_errors w)
    (calls w) (open_streams w).

Definition upd_intervals (f : list nat -> list nat) (w : World) : World :=
  mkWorld (tasks w) (isRecording w) (recording w) (isTranscribing w)
    (user w) (editingTask w) (editModalVisible w) (editTitle w)
    (editDeadline w) (recordingDuration w) (recordingTimer w)
    (currentMediaRecorder w) (f (intervals w)) (sessions w)
    (mediaRecorders w) (next_handle w) (alerts w) (console_errors w)
    (calls w) (open_streams w).

Definition upd_sessions (f : list nat -> list nat) (w : World) : World :=
  mkWorld (tasks w) (isRecording w) (recording w) (isTranscribing w)
    (user w) (editingTask w) (editModalVisible w) (editTitle w)
    (editDeadline w) (recordingDuration w) (recordingTimer w)
    (currentMediaRecorder w) (intervals w) (f (sessions w))
    (mediaRecorders w) (next_handle w) (alerts w) (console_errors w)
    (calls w) (open_streams w).

Definition upd_mediaRecorders (f : list nat -> list nat) (w : World) : World :=
  mkWorld (tasks w) (isRecording w) (recording w) (isTranscribing w)
    (user w) (editingTask w) (editModalVisible w) (editTitle w)
    (editDeadline w) (recordingDuration w) (recordingTimer w)
    (currentMediaRecorder w) (intervals w) (sessions w)
    (f (mediaRecorders w)) (next_handle w) (alerts w) (console_errors w)
    (calls w) (open_streams w).

Definition upd_next_handle (f : nat -> nat) (w : World) : World :=
  mkWorld (tasks w) (isRecording w) (recording w) (isTranscribing w)
    (user w) (editingTask w) (editModalVisible w) (editTitle w)
    (editDeadline w) (recordingDuration w) (recordingTimer w)
    (currentMediaRecorder w) (intervals w) (sessions w) (mediaRecorders w)
    (f (next_handle w)) (alerts w) (console_errors w) (calls w)
    (open_streams w).

Definition upd_alerts (f : list (jsstring * jsstring) -> list (jsstring * jsstring)) (w : World) : World :=
  mkWorld (tasks w) (isRecording w) (recording w) (isTranscribing w)
    (user w) (editingTask w) (editModalVisible w) (editTitle w)
    (editDeadline w) (recordingDuration w) (recordingTimer w)
    (currentMediaRecorder w) (intervals w) (sessions w) (mediaRecorders w)
    (next_handle w) (f (alerts w)) (console_errors w) (calls w)
    (open_streams w).

Definition upd_console_errors (f : list jsstring -> list jsstring) (w : World) : World :=
  mkWorld (tasks w) (isRecording w) (recording w) (isTranscribing w)
    (user w) (editingTask w) (editModalVisible w) (editTitle w)
    (editDeadline w) (recordingDuration w) (recordingTimer w)
    (currentMediaRecorder w) (intervals w) (sessions w) (mediaRecorders w)
    (next_handle w) (alerts w) (f (console_errors w)) (calls w)
    (open_streams w).

Definition upd_calls (f : list Call -> list Call) (w : World) : World :=
  mkWorld (tasks w) (isRecording w) (recording w) (isTranscribing w)
    (user w) (editingTask w) (editModalVisible w) (editTitle w)
    (editDeadline w) (recordingDuration w) (recordingTimer w)
    (currentMediaRecorder w) (intervals w) (sessions w) (mediaRecorders w)
    (next_handle w) (alerts w) (console_errors w) (f (calls w))
    (open_streams w).

Definition upd_open_streams (f : nat -> nat) (w : World) : World :=
  mkWorld (tasks w) (isRecording w) (recording w) (isTranscribing w)
    (user w) (editingTask w) (editModalVisible w) (editTitle w)
    (editDeadline w) (recordingDuration w) (recordingTimer w)
    (currentMediaRecorder w) (intervals w) (sessions w) (mediaRecorders w)
    (next_handle w) (alerts w) (console_errors w) (calls w)
    (f (open_streams w)).

(** ** Handlers as state-and-exception computations *)

(** An [async] function body: it runs on the world, and either returns
    or throws; state changes made before a throw stay. *)
Definition M (A : Type) : Type := World -> Result A * World.

Definition ret {A} (a : A) : M A := fun w => (Ok a, w).

Definition bind {A B} (m : M A) (k : A -> M B) : M B :=
  fun w => match m w with
           | (Ok a, w') => k a w'
           | (Throw e, w') => (Throw e, w')
           end.

Definition throw {A} (e : Exn) : M A := fun w => (Throw e, w).

(** [await] of a promise that the environment settles. *)
Definition await {A} (r : Result A) : M A := fun w => (r, w).

(** [try { m } catch (error) { h error }] *)
Definition try_catch {A} (m : M A) (h : Exn -> M A) : M A :=
  fun w => match m w with
           | (Ok a, w') => (Ok a, w')
           | (Throw e, w') => h e w'
           end.

(** [try { m } finally { f }] *)
Definition try_finally {A} (m : M A) (f : M unit) : M A :=
  fun w => match m w with
           | (r, w') => match f w' with
                        | (Ok _, w'') => (r, w'')
                        | (Throw e, w'') => (Throw e, w'')
                        end
           end.

Definition gets {A} (f : World -> A) : M A := fun w => (Ok (f w), w).

Definition modify (f : World -> World) : M unit := fun w => (Ok tt, f w).

Declare Scope js_scope.
Delimit Scope js_scope with js.
Notation "x <- m ;; k" := (bind m (fun x => k))
  (at level 61, m at next level, right associativity) : js_scope.
Notation "m ;; k" := (bind m (fun _ => k))
  (at level 61, right associativity) : js_scope.
#[local] Open Scope js_scope.

(** The world a handler leaves behind. *)
Definition run {A} (m : M A) (w : World) : World := snd (m w).

(** *** State setters, effects and service calls *)

Definition setTasks (f : list Task -> list Task) : M unit :=
  modify (upd_tasks f).
Definition setIsRecording (b : bool) : M unit :=
  modify (upd_isRecording (fun _ => b)).
Definition setRecording (r : option nat) : M unit :=
  modify (upd_recording (fun _ => r)).
Definition setIsTranscribing (b : bool) : M unit :=
  modify (upd_isTranscribing (fun _ => b)).
Definition setEditingTask (t : option Task) : M unit :=
  modify (upd_editingTask (fun _ => t)).
Definition setEditModalVisible (b : bool) : M unit :=
  modify (upd_editModalVisible (fun _ => b)).
Definition setEditTitle (s : jsstring) : M unit :=
  modify (upd_editTitle (fun _ => s)).
Definition setEditDeadline (s : jsstring) : M unit :=
  modify (upd_editDeadline (fun _ => s)).
Definition setRecordingDuration (f : Z -> Z) : M unit :=
  modify (upd_recordingDuration f).

Definition Alert_alert (heading message : string) : M unit :=
  modify (upd_alerts (fun l => l ++ [(str heading, str message)])).

Definition Alert_alert_js (heading : string) (message : jsstring) : M unit :=
  modify (upd_alerts (fun l => l ++ [(str heading, message)])).

Definition console_error (label : string) : M unit :=
  modify (upd_console_errors (fun l => l ++ [str label])).

Definition request (c : Call) : M unit :=
  modify (upd_calls (fun l => l ++ [c])).

(** A fresh handle for a runtime resource. *)
Definition fresh : M nat :=
  fun w => (Ok (next_handle w), upd_next_handle S w).

Definition remove_handle (h : nat) (l : list nat) : list nat :=
  filter (fun x => negb (Nat.eqb x h)) l.

(** [setInterval(() => setRecordingDuration(prev => prev + 1), 1000)] *)
Definition setInterval : M nat :=
  h <- fresh ;;
  modify (upd_intervals (cons h)) ;;
  ret h.

Definition clearInterval (h : nat) : M unit :=
  modify (upd_intervals (remove_handle h)).

(** One firing of interval [h]: its callback runs only while it is set. *)
Definition interval_fired (h : nat) : M unit :=
  live <- gets (fun w => existsb (Nat.eqb h) (intervals w)) ;;
  if live then setRecordingDuration (fun prev => prev + 1) else ret tt.

Definition blink_db_tasks_list (e : Env) (owner : jsstring) : M (list Task) :=
  request (DbList owner) ;; await (db_tasks_list e owner).

Definition blink_db_tasks_create (e : Env) (draft : Task) : M Task :=
  request (DbCreate draft) ;; await (db_tasks_create e draft).

Definition blink_db_tasks_update (e : Env) (key : jsstring) (p : Patch)
  : M unit :=
  request (DbUpdate key p) ;; await (db_tasks_update e key p).

Definition blink_db_tasks_delete (e : Env) (key : jsstring) : M unit :=
  request (DbDelete key) ;; await (db_tasks_delete e key).

Definition blink_ai_transcribeAudio (e : Env) (audio language : jsstring)
  : M jsstring :=
  request (AiTranscribe audio language) ;; await (ai_transcribeAudio e audio).

Definition readAsStringAsync (e : Env) (uri : jsstring) : M jsstring :=
  request (FsRead uri) ;; await (FileSystem_readAsStringAsync e uri).

(** [user.id]: a [TypeError] when [user] is [null]. *)
Definition user_dot_id : M jsstring :=
  u <- gets user ;;
  match u with
  | Some u => ret (uid u)
  | None => throw TypeError
  end.

(** [Audio.Recording.createAsync(...)]: opens a native session. *)
Definition Recording_createAsync (e : Env) : M nat :=
  await (Audio_Recording_createAsync e) ;;
  h <- fresh ;;
  modify (upd_sessions (cons h)) ;;
  ret h.

(** [recording.stopAndUnloadAsync()]: closes the native session. *)
Definition stopAndUnloadAsync (e : Env) (h : nat) : M unit :=
  await (recording_stopAndUnloadAsync e) ;;
  modify (upd_sessions (remove_handle h)).

(** [await navigator.mediaDevices.getUserMedia({ audio: true })]: when
    it resolves, one more stream is open. *)
Definition getUserMedia (stream : Result unit) : M unit :=
  await stream ;;
  modify (upd_open_streams S).

(** [new MediaRecorder(stream)] followed by [mediaRecorder.start()]:
    either throws, or leaves a recorder in state 'recording'. *)
Definition MediaRecorder_start (e : Env) : M nat :=
  await (MediaRecorder_result e) ;;
  h <- fresh ;;
  modify (upd_mediaRecorders (cons h)) ;;
  ret h.

(** [mediaRecorder.stop()] *)
Definition MediaRecorder_stop (h : nat) : M unit :=
  modify (upd_mediaRecorders (remove_handle h)).

(** ** The handlers of [VoiceToTodoApp] *)

Definition task_id (now : Z) : jsstring := str "task_" ++ number_toString now.

Arguments task_id : simpl never.

Definition loadTasks (e : Env) : M unit :=
  try_catch
    (u <- gets user ;;
     match u with
     | None => ret tt
     | Some u =>
         if negb (truthy_string (uid u)) then ret tt
         else
           userTasks <- blink_db_tasks_list e (uid u) ;;
           setTasks (fun _ => userTasks)
     end)
    (fun _ => console_error "Error loading tasks:").

Definition createTaskFromTranscription (e : Env) (transcription : jsstring)
  : M unit :=
  try_catch
    (let now := Date_now e 0%nat in
     owner <- user_dot_id ;;
     newTask <- blink_db_tasks_create e
       (mkTask (task_id now) owner transcription None 0 None 0 None
          (toISOString (Date_now e 1%nat)) (toISOString (Date_now e 2%nat))) ;;
     setTasks (fun prev => newTask :: prev) ;;
     Alert_alert_js "Task Created!"
       ([34%N] ++ transcription ++ [34%N]
          ++ str " has been added to your tasks."))
    (fun _ =>
       console_error "Error creating task:" ;;
       Alert_alert "Error" "Failed to create task. Please try again.").

Definition transcribeAudio (e : Env) (audioBase64 : jsstring) : M unit :=
  try_catch
    (text <- blink_ai_transcribeAudio e audioBase64 (str "en") ;;
     if truthy_string (trim text)
     then createTaskFromTranscription e (trim text)
     else Alert_alert "No speech detected"
            "Please try recording again with clearer speech.")
    (fun _ =>
       console_error "Transcription error:" ;;
       Alert_alert "Transcription failed"
         "Unable to convert speech to text. Please try again.").

Definition transcribeAudioFromFile (e : Env) (audioUri : jsstring) : M unit :=
  try_catch
    (audioBase64 <- readAsStringAsync e audioUri ;;
     transcribeAudio e audioBase64)
    (fun _ =>
       console_error "File reading error:" ;;
       Alert_alert "Error" "Failed to read audio file. Please try again.").

(** What [mediaRecorder.onstop] does at once: it arms the reader and
    stops the tracks of the stream. *)
Definition mediaRecorder_onstop : M unit :=
  modify (upd_open_streams Nat.pred).

(** The [reader.onload] callback that [mediaRecorder.onstop] arms. *)
Definition reader_onload (e : Env) : M unit :=
  transcribeAudio e (reader_result_base64 e).

Definition startRecording (e : Env) : M unit :=
  try_catch
    (match Platform_OS e with
     | web =>
         match mediaDevices_getUserMedia e with
         | None =>
             Alert_alert "Not Supported"
               "Voice recording is not supported in this browser. Please use the mobile app."
         | Some stream =>
             try_catch
               (getUserMedia stream ;;
                mediaRecorder <- MediaRecorder_start e ;;
                setIsRecording true ;;
                setRecordingDuration (fun _ => 0) ;;
                timer <- setInterval ;;
                modify (upd_recordingTimer (fun _ => Some timer)) ;;
                modify (upd_currentMediaRecorder (fun _ => Some mediaRecorder)))
               (fun _ =>
                  Alert_alert "Permission Denied"
                    "Please allow microphone access to record voice notes.")
         end
     | native =>
         permission <- await (Audio_requestPermissionsAsync e) ;;
         match permission with
         | granted =>
             await (Audio_setAudioModeAsync e) ;;
             recording <- Recording_createAsync e ;;
             setRecording (Some recording) ;;
             setIsRecording true ;;
             setRecordingDuration (fun _ => 0) ;;
             timer <- setInterval ;;
             modify (upd_recordingTimer (fun _ => Some timer))
         | _ =>
             Alert_alert "Permission required"
               "Please grant microphone permission to record voice notes."
         end
     end)
    (fun _ =>
       console_error "Failed to start recording:" ;;
       Alert_alert "Error" "Failed to start recording. Please try again.").

Definition stopRecording (e : Env) : M unit :=
  try_finally
    (try_catch
       (setIsRecording false ;;
        setIsTranscribing true ;;
        timer <- gets recordingTimer ;;
        match timer with
        | Some t =>
            clearInterval t ;; modify (upd_recordingTimer (fun _ => None))
        | None => ret tt
        end ;;
        match Platform_OS e with
        | web =>
            mediaRecorder <- gets currentMediaRecorder ;;
            active <- gets mediaRecorders ;;
            match mediaRecorder with
            | Some r =>
                if existsb (Nat.eqb r) active then MediaRecorder_stop r
                else ret tt
            | None => ret tt
            end
        | native =>
            rec <- gets recording ;;
            match rec with
            | None => ret tt
            | Some r =>
                stopAndUnloadAsync e r ;;
                match recording_getURI e with
                | Some uri =>
                    if truthy_string uri then transcribeAudioFromFile e uri
                    else ret tt
                | None => ret tt
                end ;;
                setRecording None
            end
        end)
       (fun _ =>
          console_error "Failed to stop recording:" ;;
          Alert_alert "Error" "Failed to process recording. Please try again."))
    (setIsTranscribing false).

Definition sampleTasks : list jsstring :=
  map str
    ["Buy groceries for the week"%string;
     "Call dentist to schedule appointment"%string;
     "Finish project presentation"%string;
     "Walk the dog in the evening"%string;
     "Review quarterly budget"%string;
     "Send follow-up email to client"%string;
     "Prepare for team meeting"%string;
     "Update portfolio website"%string].

(** [Math_random_index e n] stands for
    [Math.floor(Math.random() * n)], which is below [n]. *)
Definition addSampleTask (e : Env) : M unit :=
  try_catch
    (let randomTask :=
       nth (Math_random_index e (List.length sampleTasks)) sampleTasks [] in
     let now := Date_now e 0%nat in
     owner <- user_dot_id ;;
     newTask <- blink_db_tasks_create e
       (mkTask (task_id now) owner randomTask None 0 None 0 None
          (toISOString (Date_now e 1%nat)) (toISOString (Date_now e 2%nat))) ;;
     setTasks (fun prev => newTask :: prev))
    (fun _ => console_error "Error creating sample task:").

Definition toggleTaskCompletion (e : Env) (task : Task) : M unit :=
  try_catch
    (let newCompleted := if truthy_number (completed task) then 0 else 1 in
     blink_db_tasks_update e (id task)
       (mkPatch None (Some newCompleted) None
          (Some (toISOString (Date_now e 0%nat)))) ;;
     setTasks (map (fun t =>
       if JS.eqb (id t) (id task) then with_completed t newCompleted else t)))
    (fun _ => console_error "Error updating task:").

Definition deleteTask (e : Env) (taskId : jsstring) : M unit :=
  try_catch
    (blink_db_tasks_delete e taskId ;;
     setTasks (filter (fun t => negb (JS.eqb (id t) taskId))))
    (fun _ => console_error "Error deleting task:").

Definition openEditModal (task : Task) : M unit :=
  setEditingTask (Some task) ;;
  setEditTitle (title task) ;;
  setEditDeadline (match deadline task with
                   | Some d => if truthy_string d then d else []
                   | None => []
                   end) ;;
  setEditModalVisible true.

Definition saveTaskEdit (e : Env) : M unit :=
  editing <- gets editingTask ;;
  newTitle <- gets editTitle ;;
  newDeadline <- gets editDeadline ;;
  match editing with
  | None => ret tt
  | Some editingTask =>
      try_catch
        (blink_db_tasks_update e (id editingTask)
           (mkPatch (Some newTitle) None
              (Some (if truthy_string newDeadline then Some newDeadline
                     else None))
              (Some (toISOString (Date_now e 0%nat)))) ;;
         setTasks (map (fun t =>
           if JS.eqb (id t) (id editingTask)
           then with_title_deadline t newTitle newDeadline else t)) ;;
         setEditModalVisible false ;;
         setEditingTask None)
        (fun _ => console_error "Error updating task:")
  end.

(** The record control: [onPress = isRecording ? stopRecording :
    startRecording], [disabled = isTranscribing]. *)
Definition recordButton_onPress (e : Env) : M unit :=
  disabled <- gets isTranscribing ;;
  if disabled then ret tt
  else
    rec <- gets isRecording ;;
    if rec then stopRecording e else startRecording e.

(** ** The earlier revision of the component

    The second source file is an earlier revision of the same component,
    without the browser recorder and the duration timer. Its
    [loadTasks], [toggleTaskCompletion], [deleteTask], [openEditModal]
    and [saveTaskEdit] are those above; the handlers that differ are
    these. *)

Module Legacy.

Definition createTaskFromTranscription (e : Env) (transcription : jsstring)
  : M unit :=
  try_catch
    (let now := Date_now e 0%nat in
     owner <- user_dot_id ;;
     newTask <- blink_db_tasks_create e
       (mkTask (task_id now) owner transcription None 0 None 0 None
          (toISOString (Date_now e 1%nat)) (toISOString (Date_now e 2%nat))) ;;
     setTasks (fun prev => newTask :: prev))
    (fun _ =>
       console_error "Error creating task:" ;;
       Alert_alert "Error" "Failed to create task. Please try again.").

Definition transcribeAudio (e : Env) (audioUri : jsstring) : M unit :=
  try_catch
    (audioBase64 <- readAsStringAsync e audioUri ;;
     text <- blink_ai_transcribeAudio e audioBase64 (str "en") ;;
     if truthy_string (trim text)
     then createTaskFromTranscription e (trim text)
     else Alert_alert "No speech detected"
            "Please try recording again with clearer speech.")
    (fun _ =>
       console_error "Transcription error:" ;;
       Alert_alert "Transcription failed"
         "Unable to convert speech to text. Please try again.").

Definition startRecording (e : Env) : M unit :=
  try_catch
    (match Platform_OS e with
     | web =>
         Alert_alert "Web Recording"
           "Voice recording is not available on web. Please use the mobile app."
     | native =>
         permission <- await (Audio_requestPermissionsAsync e) ;;
         match permission with
         | granted =>
             await (Audio_setAudioModeAsync e) ;;
             recording <- Recording_createAsync e ;;
             setRecording (Some recording) ;;
             setIsRecording true
         | _ =>
             Alert_alert "Permission required"
               "Please grant microphone permission to record voice notes."
         end
     end)
    (fun _ =>
       console_error "Failed to start recording:" ;;
       Alert_alert "Error" "Failed to start recording. Please try again.").

Definition stopRecording (e : Env) : M unit :=
  rec <- gets recording ;;
  match rec with
  | None => ret tt
  | Some r =>
      try_finally
        (try_catch
           (setIsRecording false ;;
            setIsTranscribing true ;;
            stopAndUnloadAsync e r ;;
            match recording_getURI e with
            | Some uri =>
                if truthy_string uri then transcribeAudio e uri else ret tt
            | None => ret tt
            end ;;
            setRecording None)
           (fun _ =>
              console_error "Failed to stop recording:" ;;
              Alert_alert "Error"
                "Failed to process recording. Please try again."))
        (setIsTranscribing false)
  end.

Definition sampleTasks : list jsstring :=
  map str
    ["Buy groceries for the week"%string;
     "Call dentist to schedule appointment"%string;
     "Finish project presentation"%string;
     "Walk the dog in the evening"%string;
     "Review quarterly budget"%string].

Definition addSampleTask (e : Env) : M unit :=
  try_catch
    (let randomTask :=
       nth (Math_random_index e (List.length sampleTasks)) sampleTasks [] in
     let now := Date_now e 0%nat in
     owner <- user_dot_id ;;
     newTask <- blink_db_tasks_create e
       (mkTask (task_id now) owner randomTask None 0 None 0 None
          (toISOString (Date_now e 1%nat)) (toISOString (Date_now e 2%nat))) ;;
     setTasks (fun prev => newTask :: prev))
    (fun _ => console_error "Error creating sample task:").

(** [onPress = Platform.OS === 'web' ? addSampleTask :
    (isRecording ? stopRecording : startRecording)],
    [disabled = isTranscribing]. *)
Definition recordButton_onPress (e : Env) : M unit :=
  disabled <- gets isTranscribing ;;
  if disabled then ret tt
  else
    match Platform_OS e with
    | web => addSampleTask e
    | native =>
        rec <- gets isRecording ;;
        if rec then stopRecording e else startRecording e
    end.

End Legacy.

(** The component as first mounted, with [u] signed in. *)
Definition initial_world (u : option User) : World :=
  mkWorld [] false None false u None false [] [] 0 None None
    [] [] [] 0%nat [] [] [] 0%nat.

(** The drafts of the task-creation requests in a request log. *)
Fixpoint created (l : list Call) : list Task :=
  match l with
  | [] => []
  | DbCreate d :: l' => d :: created l'
  | _ :: l' => created l'
  end.

(** The draft that a creation at the clock readings of [e] sends. *)
Definition draft_of (e : Env) (owner text : jsstring) : Task :=
  mkTask (task_id (Date_now e 0%nat)) owner text None 0 None 0 None
    (toISOString (Date_now e 1%nat)) (toISOString (Date_now e 2%nat)).

(** The update that a toggle of [task] sends. *)
Definition toggle_patch (e : Env) (task : Task) : Patch :=
  mkPatch None (Some (if truthy_number (completed task) then 0 else 1)) None
    (Some (toISOString (Date_now e 0%nat))).

(** The local update of a toggle of [task]. *)
Definition toggled (task : Task) (t : Task) : Task :=
  if JS.eqb (id t) (id task)
  then with_completed t (if truthy_number (completed task) then 0 else 1)
  else t.

(** The update that saving the edit form of [w] sends. *)
Definition edit_patch (e : Env) (w : World) : Patch :=
  mkPatch (Some (editTitle w)) None
    (Some (if truthy_string (editDeadline w) then Some (editDeadline w)
           else None))
    (Some (toISOString (Date_now e 0%nat))).

(** The notices of the component, by the heading of the alert. *)
Definition NoSpeechDetected : jsstring * jsstring :=
  (str "No speech detected",
   str "Please try recording again with clearer speech.").

Definition TranscriptionFailed : jsstring * jsstring :=
  (str "Transcription failed",
   str "Unable to convert speech to text. Please try again.").

(** ** The persistence service *)

(** Modelled from the spec: the remote persistence service behind
    [blink.db.tasks] is an external collaborator; section 6 gives its
    contract ([list(filter, order)], [create(record)],
    [update(id, patch)], [delete(id)] over the task record shape). It
    is a table of records: [create] stores the record, [update] writes
    the fields present in the patch into the records with that id,
    [delete] drops them, and [list] returns the owner's records by
    [created_at], latest first. *)
Definition Remote := list Task.

Definition apply_patch (p : Patch) (t : Task) : Task :=
  mkTask (id t) (user_id t)
    (match p_title p with Some x => x | None => title t end)
    (description t)
    (match p_completed p with Some x => x | None => completed t end)
    (match p_deadline p with Some x => x | None => deadline t end)
    (reminder_enabled t) (reminder_time t) (created_at t)
    (match p_updated_at p with Some x => x | None => updated_at t end).

Definition remote_step (db : Remote) (c : Call) : Remote :=
  match c with
  | DbCreate d => d :: db
  | DbUpdate k p =>
      map (fun t => if JS.eqb (id t) k then apply_patch p t else t) db
  | DbDelete k => filter (fun t => negb (JS.eqb (id t) k)) db
  | _ => db
  end.

(** Code-unit order of two strings, as [<=] on JavaScript strings. *)
Fixpoint leb_string (a b : jsstring) : bool :=
  match a, b with
  | [], _ => true
  | _ :: _, [] => false
  | x :: a', y :: b' =>
      if (x <? y)%N then true
      else if (y <? x)%N then false
      else leb_string a' b'
  end.

Fixpoint insert_desc (t : Task) (l : list Task) : list Task :=
  match l with
  | [] => [t]
  | x :: l' =>
      if leb_string (created_at x) (created_at t) then t :: l
      else x :: insert_desc t l'
  end.

Definition remote_list (owner : jsstring) (db : Remote) : list Task :=
  fold_right insert_desc []
    (filter (fun t => JS.eqb (user_id t) owner) db).

(** The table after the service has served every write of a request
    log, starting empty. *)
Definition remote_of (l : list Call) : Remote := fold_left remote_step l [].

(** An environment in which every remote write succeeds, creation
    returning the stored record, at the given clock readings. *)
Definition all_writes_succeed (os : Platform) (clock : nat -> Z)
  (text : Result jsstring) : Env :=
  mkEnv os clock (fun _ => 0%nat)
    (fun _ => Ok []) (fun d => Ok d) (fun _ _ => Ok tt) (fun _ => Ok tt)
    (fun _ => text) (fun _ => Ok []) (Ok granted) (Ok tt) (Ok tt) (Ok tt)
    None None [] (Ok tt).

(** ** Sample data *)

Definition alice : User := mkUser (str "user_1").

(** Every remote write succeeds and the clock reads [t] throughout. *)
Definition env_at (t : Z) : Env :=
  all_writes_succeed native (fun _ => t) (Ok (str "  buy milk ")).

(** As [env_at], but every remote call is rejected. *)
Definition env_offline (t : Z) : Env :=
  let down {A} : Result A := Throw (Rejected (str "network")) in
  mkEnv native (fun _ => t) (fun _ => 0%nat)
    (fun _ => down) (fun _ => down) (fun _ _ => down) (fun _ => down)
    (fun _ => down) (fun _ => down) (Ok granted) (Ok tt) (Ok tt) (Ok tt)
    None None [] (Ok tt).

(** As [env_at], but the service answers every creation with [t]. *)
Definition env_returning (t : Task) (now : Z) : Env :=
  mkEnv native (fun _ => now) (fun _ => 0%nat)
    (fun _ => Ok []) (fun _ => Ok t) (fun _ _ => Ok tt) (fun _ => Ok tt)
    (fun _ => Ok (str "  buy milk ")) (fun _ => Ok []) (Ok granted) (Ok tt)
    (Ok tt) (Ok tt) None None [] (Ok tt).

Definition buy_milk : Task :=
  mkTask (str "task_1700000000000") (str "user_1") (str "buy milk") None 0
    None 0 None (str "2023-11-14T22:13:20.000Z")
    (str "2023-11-14T22:13:20.000Z").

Definition walk_dog : Task :=
  mkTask (str "task_1600000000000") (str "user_1") (str "walk the dog") None 1
    None 0 None (str "2020-09-13T12:26:40.000Z")
    (str "2020-09-13T12:26:40.000Z").

(** A signed-in component holding two tasks. *)
Definition two_tasks : World :=
  upd_tasks (fun _ => [buy_milk; walk_dog]) (initial_world (Some alice)).

(** A native recording in its sixth second: session 0, timer 1. *)
Definition recording_world : World :=
  mkWorld [buy_milk] true (Some 0%nat) false (Some alice) None false [] [] 5
    (Some 1%nat) None [1%nat] [0%nat] [] 2%nat [] [] [] 0%nat.

(** The edit form opened on "buy milk", its title field emptied. *)
Definition editing_world : World :=
  run (setEditTitle []) (run (openEditModal buy_milk) two_tasks).

(** The presses of the record control, one environment per press. *)
Definition presses (es : list Env) (w : World) : World :=
  fold_left (fun w e => run (recordButton_onPress e) w) es w.

(** The local update of an edit of [task]. *)
Definition edited (task : Task) (ti d : jsstring) (t : Task) : Task :=
  if JS.eqb (id t) (id task) then with_title_deadline t ti d else t.

(** ** The rest of the component: mount, views, duration *)

(** [s.padStart(targetLength, fill)] for a one-character [fill]. *)
Definition padStart (targetLength : nat) (fill : N) (s : jsstring) : jsstring :=
  repeat fill (targetLength - List.length s) ++ s.

(** [formatDuration]: [Math.floor(seconds / 60)], the remainder
    [seconds % 60] (of the sign of [seconds]), the latter padded to two
    characters. *)
Definition formatDuration (seconds : Z) : jsstring :=
  let mins := seconds / 60 in
  let secs := Z.rem seconds 60 in
  number_toString mins ++ str ":" ++ padStart 2 48%N (number_toString secs).

(** The state that [blink.auth.onAuthStateChanged] reports. *)
Record AuthState := mkAuthState {
  state_user : option User;
  state_isLoading : bool
}.

(** The component with its [isLoading] cell, which only the views read. *)
Record App := mkApp {
  isLoading : bool;
  component : World
}.

(** The first render: [useState] initial values. *)
Definition mounted : App := mkApp true (initial_world None).

(** [loadTasks] as the render of [rendered] creates it: the [user] it
    tests and sends is the one that render saw. *)
Definition loadTasks_of (rendered : World) (e : Env) : M unit :=
  try_catch
    (match user rendered with
     | None => ret tt
     | Some u =>
         if negb (truthy_string (uid u)) then ret tt
         else
           userTasks <- blink_db_tasks_list e (uid u) ;;
           setTasks (fun _ => userTasks)
     end)
    (fun _ => console_error "Error loading tasks:").

(** The callback that the mount effect ([useEffect(..., [])], run once,
    after the first render) registers: [setUser], [setIsLoading], and
    the first render's [loadTasks] when a user is reported. *)
Definition onAuthStateChanged (e : Env) (state : AuthState) (a : App) : App :=
  let w := upd_user (fun _ => state_user state) (component a) in
  mkApp (state_isLoading state)
    (match state_user state with
     | Some _ => run (loadTasks_of (component mounted) e) w
     | None => w
     end).

(** Which of the three returns of the component renders. *)
Inductive Screen := LoadingScreen | SignInScreen | MainScreen.

Definition screen (a : App) : Screen :=
  if isLoading a then LoadingScreen
  else match user (component a) with
       | None => SignInScreen
       | Some _ => MainScreen
       end.

(** [renderTask]: the box is checked when [Number(item.completed) > 0],
    the deadline line shows when [item.deadline] is truthy. *)
Definition checkbox_checked (item : Task) : bool := 0 <? completed item.

Definition deadline_shown (item : Task) : option jsstring :=
  match deadline item with
  | Some d => if truthy_string d then Some d else None
  | None => None
  end.

(** The earlier revision checks the box when [item.completed] is truthy. *)
Definition legacy_checkbox_checked (item : Task) : bool :=
  truthy_number (completed item).

(** [n] firings of interval [h]. *)
Definition ticks (n : nat) (h : nat) (w : World) : World :=
  Nat.iter n (run (interval_fired h)) w.

(** Whether the environment lets [startRecording] begin a recording: in
    the browser the stream must be granted and the recorder must start,
    on a device the permission, the audio mode and the session must all
    be obtained. *)
Definition start_succeeds (e : Env) : bool :=
  match Platform_OS e with
  | web =>
      match mediaDevices_getUserMedia e, MediaRecorder_result e with
      | Some (Ok _), Ok _ => true
      | _, _ => false
      end
  | native =>
      match Audio_requestPermissionsAsync e, Audio_setAudioModeAsync e,
            Audio_Recording_createAsync e with
      | Ok granted, Ok _, Ok _ => true
      | _, _, _ => false
      end
  end.

(** Whether [startRecording] fails with a stream already acquired: the
    browser granted the stream and the recorder then threw. *)
Definition stream_left_open (e : Env) : bool :=
  match Platform_OS e with
  | web =>
      match mediaDevices_getUserMedia e, MediaRecorder_result e with
      | Some (Ok _), Throw _ => true
      | _, _ => false
      end
  | native => false
  end.

(** The cells and resources of the recording controller. *)
Definition controller (w : World) :=
  (isRecording w, recording w, isTranscribing w, recordingDuration w,
   recordingTimer w, currentMediaRecorder w,
   intervals w, sessions w, mediaRecorders w, next_handle w,
   open_streams w).

(** The cells of the edit form. *)
Definition form (w : World) :=
  (editingTask w, editModalVisible w, editTitle w, editDeadline w).

(** *** More sample data *)

(** A device on which the microphone permission is refused. *)
Definition env_denied : Env :=
  mkEnv native (fun _ => 0) (fun _ => 0%nat)
    (fun _ => Ok []) (fun d => Ok d) (fun _ _ => Ok tt) (fun _ => Ok tt)
    (fun _ => Ok []) (fun _ => Ok []) (Ok denied) (Ok tt) (Ok tt) (Ok tt)
    None None [] (Ok tt).

(** A browser that grants the microphone; every remote write succeeds. *)
Definition env_browser (now : Z) : Env :=
  mkEnv web (fun _ => now) (fun _ => 0%nat)
    (fun _ => Ok []) (fun d => Ok d) (fun _ _ => Ok tt) (fun _ => Ok tt)
    (fun _ => Ok (str "  buy milk ")) (fun _ => Ok []) (Ok granted) (Ok tt)
    (Ok tt) (Ok tt) None (Some (Ok tt)) (str "UklGRg==") (Ok tt).

(** A browser that grants the microphone but whose recorder refuses to
    start. *)
Definition env_browser_no_recorder : Env :=
  mkEnv web (fun _ => 0) (fun _ => 0%nat)
    (fun _ => Ok []) (fun d => Ok d) (fun _ _ => Ok tt) (fun _ => Ok tt)
    (fun _ => Ok []) (fun _ => Ok []) (Ok granted) (Ok tt) (Ok tt) (Ok tt)
    None (Some (Ok tt)) [] (Throw (Rejected (str "NotSupportedError"))).

(** A device on which the whole pipeline goes through. *)
Definition env_pipeline (now : Z) : Env :=
  mkEnv native (fun _ => now) (fun _ => 0%nat)
    (fun _ => Ok []) (fun d => Ok d) (fun _ _ => Ok tt) (fun _ => Ok tt)
    (fun _ => Ok (str "  buy milk ")) (fun _ => Ok (str "UklGRg=="))
    (Ok granted) (Ok tt) (Ok tt) (Ok tt)
    (Some (str "file:///rec.wav")) None [] (Ok tt).

(** * Properties *)

(** ** Strings *)

Lemma eqb_eq (a b : jsstring) : JS.eqb a b = true <-> a = b.
Proof.
  unfold JS.eqb. destruct (list_eq_dec N.eq_dec a b); split; congruence.
Qed.

Lemma eqb_refl (a : jsstring) : JS.eqb a a = true.
Proof. now apply eqb_eq. Qed.

Lemma eqb_neq (a b : jsstring) : JS.eqb a b = false <-> a <> b.
Proof.
  unfold JS.eqb. destruct (list_eq_dec N.eq_dec a b); split; congruence.
Qed.

Lemma trimStart_blank (s : jsstring) :
  Forall (fun c => isWhiteSpace c = true) s -> trimStart s = [].
Proof.
  induction 1 as [|c s Hc _ IH]; simpl; [reflexivity|].
  now rewrite Hc.
Qed.

Lemma trimStart_nil_blank (s : jsstring) :
  trimStart s = [] -> Forall (fun c => isWhiteSpace c = true) s.
Proof.
  induction s as [|c s IH]; simpl; [constructor|].
  destruct (isWhiteSpace c) eqn:Hc; [|discriminate].
  intros H. constructor; auto.
Qed.

(** [trim] leaves nothing exactly of the texts made of white space. *)
Lemma trim_nil_iff (s : jsstring) :
  trim s = [] <-> Forall (fun c => isWhiteSpace c = true) s.
Proof.
  unfold trim, trimEnd. split.
  - intros H. apply trimStart_nil_blank.
    apply (f_equal (@List.rev N)) in H. rewrite rev_involutive in H.
    simpl in H. apply trimStart_nil_blank in H.
    apply Forall_rev in H. rewrite rev_involutive in H.
    destruct (trimStart s) as [|c r] eqn:E; [reflexivity|].
    assert (Hc : isWhiteSpace c = true) by now inversion H.
    clear H. exfalso. revert E Hc. clear.
    induction s as [|x s IH]; simpl; [discriminate|].
    destruct (isWhiteSpace x) eqn:Hx; [exact IH|].
    intros [= -> _]. congruence.
  - intros H. now rewrite (trimStart_blank H).
Qed.

Lemma truthy_string_false (s : jsstring) : truthy_string s = false <-> s = [].
Proof. destruct s; simpl; split; congruence. Qed.

Lemma truthy_string_true (s : jsstring) : truthy_string s = true <-> s <> [].
Proof. destruct s; simpl; split; congruence. Qed.

Lemma str_inj (a b : string) : str a = str b -> a = b.
Proof.
  unfold str. revert b.
  induction a as [|c a IH]; intros [|d b]; simpl; try discriminate; auto.
  intros [= Hc Hr]. f_equal; [|now apply IH].
  rewrite <- (ascii_N_embedding c), <- (ascii_N_embedding d). now rewrite Hc.
Qed.

Lemma number_toString_inj (m n : Z) :
  number_toString m = number_toString n -> m = n.
Proof.
  unfold number_toString. intros H. apply str_inj in H.
  apply DecimalZ.to_int_inj.
  apply (f_equal DecimalString.NilEmpty.int_of_string) in H.
  rewrite !DecimalString.NilEmpty.isi in H. congruence.
Qed.


(** ** The voice pipeline *)

Create HintDb handlers.

#[local] Hint Unfold run transcribeAudio transcribeAudioFromFile
  createTaskFromTranscription addSampleTask toggleTaskCompletion deleteTask
  saveTaskEdit loadTasks startRecording stopRecording reader_onload
  recordButton_onPress openEditModal
  Legacy.transcribeAudio Legacy.createTaskFromTranscription
  Legacy.startRecording Legacy.stopRecording Legacy.addSampleTask
  Legacy.recordButton_onPress
  blink_ai_transcribeAudio blink_db_tasks_create blink_db_tasks_update
  blink_db_tasks_delete blink_db_tasks_list readAsStringAsync user_dot_id
  Recording_createAsync stopAndUnloadAsync MediaRecorder_start
  getUserMedia mediaRecorder_onstop
  MediaRecorder_stop setInterval clearInterval fresh
  try_catch try_finally bind ret throw await gets modify request
  Alert_alert Alert_alert_js console_error setTasks setIsRecording
  setRecording setIsTranscribing setEditingTask setEditModalVisible
  setEditTitle setEditDeadline setRecordingDuration : handlers.

#[local] Arguments upd_tasks f w /.
#[local] Arguments upd_isRecording f w /.
#[local] Arguments upd_recording f w /.
#[local] Arguments upd_isTranscribing f w /.
#[local] Arguments upd_user f w /.
#[local] Arguments upd_editingTask f w /.
#[local] Arguments upd_editModalVisible f w /.
#[local] Arguments upd_editTitle f w /.
#[local] Arguments upd_editDeadline f w /.
#[local] Arguments upd_recordingDuration f w /.
#[local] Arguments upd_recordingTimer f w /.
#[local] Arguments upd_currentMediaRecorder f w /.
#[local] Arguments upd_intervals f w /.
#[local] Arguments upd_sessions f w /.
#[local] Arguments upd_mediaRecorders f w /.
#[local] Arguments upd_next_handle f w /.
#[local] Arguments upd_alerts f w /.
#[local] Arguments upd_console_errors f w /.
#[local] Arguments upd_calls f w /.
#[local] Arguments upd_open_streams f w /.

(** Unfold a handler down to the updates it makes on the world. *)
Ltac handler := autounfold with handlers; cbn.

Lemma created_app (l l' : list Call) :
  created (l ++ l') = created l ++ created l'.
Proof.
  induction l as [|c l IH]; simpl; [reflexivity|].
  destruct c; simpl; now rewrite IH.
Qed.

(** What a creation leaves in the collection, in every case. *)
Lemma create_tasks (e : Env) (w : World) (text : jsstring) :
  tasks (run (createTaskFromTranscription e text) w) =
  match user w with
  | Some u =>
      match db_tasks_create e (draft_of e (uid u) text) with
      | Ok newTask => newTask :: tasks w
      | Throw _ => tasks w
      end
  | None => tasks w
  end.
Proof.
  handler. destruct (user w) as [u|]; cbn; [|reflexivity].
  unfold draft_of. now destruct (db_tasks_create e _).
Qed.

Lemma create_calls (e : Env) (w : World) (text : jsstring) (u : User) :
  user w = Some u ->
  calls (run (createTaskFromTranscription e text) w) =
  calls w ++ [DbCreate (draft_of e (uid u) text)].
Proof.
  intros Hu. handler. rewrite Hu. cbn.
  unfold draft_of. now destruct (db_tasks_create e _).
Qed.




(** C2. When the recognized text is made of white space only (the empty
    text included), the pipeline reports "No speech detected", sends no
    task creation, and leaves the task collection as it was. *)
Theorem blank_text_is_no_speech
  (e : Env) (w : World) (audio text : jsstring) :
  ai_transcribeAudio e audio = Ok text ->
  Forall (fun c => isWhiteSpace c = true) text ->
  let w' := run (transcribeAudio e audio) w in
  alerts w' = alerts w ++ [NoSpeechDetected] /\
  calls w' = calls w ++ [AiTranscribe audio (str "en")] /\
  created (calls w') = created (calls w) /\
  tasks w' = tasks w /\
  List.length (tasks w') = List.length (tasks w).
Proof.
  intros Ht Hb. apply trim_nil_iff in Hb.
  handler. rewrite Ht, Hb. cbn.
  rewrite created_app, app_nil_r. auto.
Qed.

Lemma blank_text_is_no_speech_witness :
  let w := two_tasks in
  let e := all_writes_succeed native (fun _ => 1700000000000)
             (Ok (str "   ")) in
  alerts (run (transcribeAudio e []) w) = [NoSpeechDetected] /\
  tasks (run (transcribeAudio e []) w) = [buy_milk; walk_dog].
Proof.
  intros w e.
  destruct (@blank_text_is_no_speech e w [] (str "   "))
    as (Ha & _ & _ & Ht & _).
  - reflexivity.
  - repeat constructor.
  - split; [exact Ha | exact Ht].
Defined.

Lemma transcribe_tasks (e : Env) (w : World) (audio : jsstring) :
  tasks (run (transcribeAudio e audio) w) =
  match ai_transcribeAudio e audio with
  | Ok text =>
      if truthy_string (trim text)
      then tasks (run (createTaskFromTranscription e (trim text)) w)
      else tasks w
  | Throw _ => tasks w
  end.
Proof.
  handler. destruct (ai_transcribeAudio e audio) as [text|err]; cbn;
    [|reflexivity].
  destruct (truthy_string (trim text)); cbn; [|reflexivity].
  destruct (user w) as [u|]; cbn; [|reflexivity].
  now destruct (db_tasks_create e _).
Qed.

Lemma transcribe_file_tasks (e : Env) (w : World) (uri : jsstring) :
  tasks (run (transcribeAudioFromFile e uri) w) =
  match FileSystem_readAsStringAsync e uri with
  | Ok audio => tasks (run (transcribeAudio e audio) w)
  | Throw _ => tasks w
  end.
Proof.
  handler. destruct (FileSystem_readAsStringAsync e uri) as [audio|err]; cbn;
    [|reflexivity].
  destruct (ai_transcribeAudio e audio) as [text|err]; cbn; [|reflexivity].
  destruct (truthy_string (trim text)); cbn; [|reflexivity].
  destruct (user w) as [u|]; cbn; [|reflexivity].
  now destruct (db_tasks_create e _).
Qed.

(** Starting a recording never touches the task collection. *)
Lemma start_tasks (e : Env) (w : World) :
  tasks (run (startRecording e) w) = tasks w.
Proof.
  handler. destruct (Platform_OS e); cbn.
  - destruct (mediaDevices_getUserMedia e) as [[[]|err]|]; cbn;
      try reflexivity.
    destruct (MediaRecorder_result e) as [[]|err]; reflexivity.
  - destruct (Audio_requestPermissionsAsync e) as [[]|err]; cbn;
      try reflexivity.
    destruct (Audio_setAudioModeAsync e) as [[]|err]; cbn; try reflexivity.
    destruct (Audio_Recording_createAsync e) as [[]|err]; reflexivity.
Qed.

(** Split on whatever the handler branches on next: an answer of the
    environment or a cell of the state. *)
Ltac branch :=
  repeat (cbn;
          match goal with
          | |- context [match ?x with _ => _ end] =>
              lazymatch x with
              | context [match _ with _ => _ end] => fail
              | _ => destruct x
              end
          end);
  cbn.

(** Stopping changes the collection only through the file it hands to
    the transcription. *)
Lemma stop_tasks (e : Env) (w : World) :
  tasks (run (stopRecording e) w) =
  match Platform_OS e, recording w, recording_stopAndUnloadAsync e,
        recording_getURI e with
  | native, Some _, Ok _, Some uri =>
      if truthy_string uri then tasks (run (transcribeAudioFromFile e uri) w)
      else tasks w
  | _, _, _, _ => tasks w
  end.
Proof.
  handler. branch; reflexivity.
Qed.

(** C3. Creation is atomic on the local collection: the record that the
    remote creation returns (whatever it is, not the draft) is put first
    only when that call succeeds; when it fails, or when an earlier stage
    of the pipeline fails (the recording cannot be finalized or yields no
    file, the file cannot be read, the transcription fails or hears
    nothing), the collection is left as it was. *)
Theorem creation_is_atomic (e : Env) (w : World) (text : jsstring) :
  (forall u newTask,
      user w = Some u ->
      db_tasks_create e (draft_of e (uid u) text) = Ok newTask ->
      tasks (run (createTaskFromTranscription e text) w) = newTask :: tasks w) /\
  (forall u err,
      user w = Some u ->
      db_tasks_create e (draft_of e (uid u) text) = Throw err ->
      tasks (run (createTaskFromTranscription e text) w) = tasks w) /\
  (forall audio err,
      ai_transcribeAudio e audio = Throw err ->
      tasks (run (transcribeAudio e audio) w) = tasks w) /\
  (forall audio heard,
      ai_transcribeAudio e audio = Ok heard ->
      trim heard = [] ->
      tasks (run (transcribeAudio e audio) w) = tasks w) /\
  (forall uri err,
      FileSystem_readAsStringAsync e uri = Throw err ->
      tasks (run (transcribeAudioFromFile e uri) w) = tasks w) /\
  (forall err,
      recording_stopAndUnloadAsync e = Throw err ->
      tasks (run (stopRecording e) w) = tasks w) /\
  (recording_getURI e = None ->
   tasks (run (stopRecording e) w) = tasks w) /\
  tasks (run (startRecording e) w) = tasks w.
Proof.
  repeat split.
  - intros u newTask Hu Hc. now rewrite create_tasks, Hu, Hc.
  - intros u err Hu Hc. now rewrite create_tasks, Hu, Hc.
  - intros audio err Ha. now rewrite transcribe_tasks, Ha.
  - intros audio heard Ha Hb. now rewrite transcribe_tasks, Ha, Hb.
  - intros uri err Hr. now rewrite transcribe_file_tasks, Hr.
  - intros err Hs. rewrite stop_tasks, Hs.
    destruct (Platform_OS e), (recording w); reflexivity.
  - intros Hn. rewrite stop_tasks, Hn.
    destruct (Platform_OS e), (recording w),
      (recording_stopAndUnloadAsync e); reflexivity.
  - apply start_tasks.
Qed.

Lemma creation_is_atomic_witness :
  tasks (run (createTaskFromTranscription (env_at 1700000000000)
                (str "buy milk")) (initial_world (Some alice))) = [buy_milk]
  /\
  tasks (run (createTaskFromTranscription (env_returning walk_dog 0)
                (str "buy milk")) (initial_world (Some alice))) = [walk_dog]
  /\
  tasks (run (createTaskFromTranscription (env_offline 1700000000000)
                (str "buy milk")) two_tasks) = [buy_milk; walk_dog]
  /\
  tasks (run (transcribeAudio (env_offline 1700000000000) []) two_tasks)
  = [buy_milk; walk_dog].
Proof.
  split; [|split; [|split]].
  - exact (proj1 (creation_is_atomic (env_at 1700000000000)
                    (initial_world (Some alice)) (str "buy milk"))
             alice buy_milk eq_refl eq_refl).
  - exact (proj1 (creation_is_atomic (env_returning walk_dog 0)
                    (initial_world (Some alice)) (str "buy milk"))
             alice walk_dog eq_refl eq_refl).
  - exact (proj1 (proj2 (creation_is_atomic (env_offline 1700000000000)
                           two_tasks (str "buy milk")))
             alice (Rejected (str "network")) eq_refl eq_refl).
  - exact (proj1 (proj2 (proj2 (creation_is_atomic
                                  (env_offline 1700000000000) two_tasks [])))
             [] (Rejected (str "network")) eq_refl).
Defined.

(** ** The task store *)

Lemma toggle_tasks (e : Env) (w : World) (task : Task) :
  tasks (run (toggleTaskCompletion e task) w) =
  match db_tasks_update e (id task) (toggle_patch e task) with
  | Ok _ => map (toggled task) (tasks w)
  | Throw _ => tasks w
  end.
Proof.
  handler. unfold toggle_patch. now destruct (db_tasks_update e _ _).
Qed.

Lemma delete_tasks (e : Env) (w : World) (k : jsstring) :
  tasks (run (deleteTask e k) w) =
  match db_tasks_delete e k with
  | Ok _ => filter (fun t => negb (JS.eqb (id t) k)) (tasks w)
  | Throw _ => tasks w
  end.
Proof.
  handler. now destruct (db_tasks_delete e k).
Qed.

Lemma delete_alerts (e : Env) (w : World) (k : jsstring) :
  alerts (run (deleteTask e k) w) = alerts w.
Proof.
  handler. now destruct (db_tasks_delete e k).
Qed.





(** C10. The local update of a toggle keeps the collection's length and
    order, leaves every record with another id as it is, and in the
    records with the toggled id changes no field but [completed]:
    [updated_at], [title], [deadline], [created_at] and the rest stay. *)
Theorem toggle_changes_only_completed (e : Env) (w : World) (task : Task) :
  let w' := run (toggleTaskCompletion e task) w in
  List.length (tasks w') = List.length (tasks w) /\
  map id (tasks w') = map id (tasks w) /\
  Forall2
    (fun t t' =>
       id t' = id t /\ user_id t' = user_id t /\ title t' = title t /\
       description t' = description t /\ deadline t' = deadline t /\
       reminder_enabled t' = reminder_enabled t /\
       reminder_time t' = reminder_time t /\
       created_at t' = created_at t /\ updated_at t' = updated_at t /\
       (id t <> id task -> t' = t))
    (tasks w) (tasks w').
Proof.
  intros w'. subst w'. rewrite toggle_tasks.
  destruct (db_tasks_update e (id task) (toggle_patch e task)) as [_|_].
  - rewrite length_map. split; [reflexivity|]. split.
    + rewrite map_map. apply map_ext. intros t. unfold toggled.
      now destruct (JS.eqb (id t) (id task)).
    + induction (tasks w) as [|t l IH]; simpl; constructor; [|exact IH].
      unfold toggled. destruct (JS.eqb (id t) (id task)) eqn:E; simpl.
      * apply eqb_eq in E. repeat split; congruence.
      * repeat split; reflexivity.
  - repeat split. induction (tasks w) as [|t l IH]; constructor; [|exact IH].
    repeat split; reflexivity.
Qed.

(** In particular no toggle, accepted or not, moves a local
    [updated_at]. *)
Lemma toggle_keeps_updated_at (e : Env) (w : World) (task : Task) :
  map updated_at (tasks (run (toggleTaskCompletion e task) w)) =
  map updated_at (tasks w).
Proof.
  rewrite toggle_tasks.
  destruct (db_tasks_update e (id task) (toggle_patch e task)) as [_|_];
    [|reflexivity].
  rewrite map_map. apply map_ext. intros t. unfold toggled.
  now destruct (JS.eqb (id t) (id task)).
Qed.

(** A toggle of a stored record flips its flag, and two toggles bring a
    0/1 flag back. *)
Lemma toggled_flips (t : Task) :
  truthy_number (completed (toggled t t)) = negb (truthy_number (completed t)).
Proof.
  unfold toggled. rewrite eqb_refl. simpl.
  now destruct (truthy_number (completed t)).
Qed.

Lemma toggled_twice (t : Task) :
  completed t = 0 \/ completed t = 1 ->
  toggled (toggled t t) (toggled t t) = t.
Proof.
  unfold toggled. rewrite eqb_refl. simpl. rewrite eqb_refl.
  destruct t as [i u ti d c dl r rt ca ua]. simpl.
  intros [-> | ->]; reflexivity.
Qed.

(** C4, at a toggle of "buy milk" one minute after its creation, the
    update being accepted: the flag flips in the local record and the
    request carries the new [updated_at], but the local record keeps the
    [updated_at] of its creation. *)
Theorem toggle_keeps_local_updated_at :
  let e := env_at 1700000060000 in
  let w' := run (toggleTaskCompletion e buy_milk) two_tasks in
  db_tasks_update e (id buy_milk) (toggle_patch e buy_milk) = Ok tt /\
  calls w' =
    [DbUpdate (str "task_1700000000000")
       (mkPatch None (Some 1) None (Some (str "2023-11-14T22:14:20.000Z")))] /\
  map completed (tasks w') = [1; 1] /\
  map updated_at (tasks w') =
    [str "2023-11-14T22:13:20.000Z"; str "2020-09-13T12:26:40.000Z"] /\
  map updated_at (tasks w') = map updated_at (tasks two_tasks).
Proof.
  repeat split; vm_compute; reflexivity.
Qed.

(** C6, at the sequence "create buy milk, then toggle it a minute later"
    with every remote write accepted: after the creation the service's
    list and the local cache agree; after the toggle the service holds
    the new [updated_at] and the local cache the old one. *)
Theorem roundtrip_differs_after_toggle :
  let w1 := run (createTaskFromTranscription (env_at 1700000000000)
                   (str "buy milk")) (initial_world (Some alice)) in
  let w2 := run (toggleTaskCompletion (env_at 1700000060000) buy_milk) w1 in
  tasks w1 = [buy_milk] /\
  remote_list (uid alice) (remote_of (calls w1)) = tasks w1 /\
  map updated_at (tasks w2) = [str "2023-11-14T22:13:20.000Z"] /\
  map updated_at (remote_list (uid alice) (remote_of (calls w2))) =
    [str "2023-11-14T22:14:20.000Z"] /\
  remote_list (uid alice) (remote_of (calls w2)) <> tasks w2.
Proof.
  repeat split; vm_compute; try reflexivity. discriminate.
Qed.

(** The same sequence with an edit that clears the deadline: the service
    is sent [null], the local cache keeps the empty string. *)
Lemma roundtrip_differs_after_edit :
  let w1 := run (createTaskFromTranscription (env_at 1700000000000)
                   (str "buy milk")) (initial_world (Some alice)) in
  let w2 := run (openEditModal buy_milk) w1 in
  let w3 := run (saveTaskEdit (env_at 1700000060000)) w2 in
  map deadline (tasks w3) = [Some []] /\
  map deadline (remote_list (uid alice) (remote_of (calls w3))) = [None].
Proof.
  split; vm_compute; reflexivity.
Qed.

(** C8, at two creations within one millisecond (a voice task and a
    sample task, both accepted): the two records carry the same id. *)
Theorem same_millisecond_same_id :
  let e := env_at 1700000000000 in
  let w1 := run (createTaskFromTranscription e (str "buy milk"))
              (initial_world (Some alice)) in
  let w2 := run (addSampleTask e) w1 in
  map title (tasks w2) = [str "Buy groceries for the week"; str "buy milk"] /\
  map id (tasks w2) = [str "task_1700000000000"; str "task_1700000000000"] /\
  ~ NoDup (map id (tasks w2)).
Proof.
  repeat split; try (vm_compute; reflexivity).
  intros H. inversion H as [|x l Hnin _]. apply Hnin. left. reflexivity.
Qed.

Lemma edit_tasks (e : Env) (w : World) (t : Task) :
  editingTask w = Some t ->
  tasks (run (saveTaskEdit e) w) =
  match db_tasks_update e (id t) (edit_patch e w) with
  | Ok _ => map (edited t (editTitle w) (editDeadline w)) (tasks w)
  | Throw _ => tasks w
  end.
Proof.
  intros Ht. handler. rewrite Ht. cbn. unfold edit_patch.
  now destruct (db_tasks_update e _ _).
Qed.

(** C5 fails: saving the form with an empty title, the update being
    accepted, shows no notice and stores the empty title. *)
Lemma empty_title_edit_is_stored :
  let w' := run (saveTaskEdit (env_at 1700000060000)) editing_world in
  editTitle editing_world = [] /\
  alerts w' = [] /\
  map title (tasks editing_world) = [str "buy milk"; str "walk the dog"] /\
  map title (tasks w') = [[]; str "walk the dog"] /\
  tasks w' <> tasks editing_world.
Proof.
  repeat split; vm_compute; try reflexivity. discriminate.
Qed.

(** C5, amended. An edit whose title is the empty string is not
    validated: no notice is shown and the update is sent; when the
    service accepts it, the records with the edited id get the empty
    title and the edited deadline and every other record stays; the
    store content is unchanged when the service rejects the update. *)
Theorem empty_title_edit_is_applied (e : Env) (w : World) (t : Task) :
  editingTask w = Some t ->
  editTitle w = [] ->
  let w' := run (saveTaskEdit e) w in
  alerts w' = alerts w /\
  calls w' = calls w ++ [DbUpdate (id t) (edit_patch e w)] /\
  p_title (edit_patch e w) = Some [] /\
  (db_tasks_update e (id t) (edit_patch e w) = Ok tt ->
   tasks w' = map (edited t [] (editDeadline w)) (tasks w)) /\
  (forall err,
      db_tasks_update e (id t) (edit_patch e w) = Throw err ->
      tasks w' = tasks w).
Proof.
  intros Ht He w'. subst w'. rewrite (edit_tasks e w Ht), He.
  split; [|split; [|split; [|split]]].
  - handler. rewrite Ht. cbn. now destruct (db_tasks_update e _ _).
  - handler. rewrite Ht. cbn. unfold edit_patch.
    now destruct (db_tasks_update e _ _).
  - unfold edit_patch. now rewrite He.
  - now intros ->.
  - now intros err ->.
Qed.

Lemma empty_title_edit_is_applied_witness :
  map title (tasks (run (saveTaskEdit (env_at 1700000060000)) editing_world))
  = [[]; str "walk the dog"] /\
  tasks (run (saveTaskEdit (env_offline 1700000060000)) editing_world)
  = [buy_milk; walk_dog].
Proof.
  split.
  - destruct (@empty_title_edit_is_applied (env_at 1700000060000)
                editing_world buy_milk eq_refl eq_refl)
      as (_ & _ & _ & Hok & _).
    rewrite (Hok eq_refl). reflexivity.
  - destruct (@empty_title_edit_is_applied (env_offline 1700000060000)
                editing_world buy_milk eq_refl eq_refl)
      as (_ & _ & _ & _ & Hfail).
    exact (Hfail _ eq_refl).
Defined.

(** ** The recording controller *)

(** C7 fails: [startRecording], run while a native recording is in its
    sixth second, opens a second session, sets a second timer and puts
    the elapsed duration back to zero. *)
Lemma start_while_recording_restarts :
  let w' := run (startRecording (env_at 1700000000000)) recording_world in
  isRecording recording_world = true /\
  sessions recording_world = [0%nat] /\ sessions w' = [2%nat; 0%nat] /\
  intervals recording_world = [1%nat] /\ intervals w' = [3%nat; 1%nat] /\
  recordingDuration recording_world = 5 /\ recordingDuration w' = 0 /\
  alerts w' = [] /\
  w' <> recording_world.
Proof.
  repeat split; vm_compute; try reflexivity. discriminate.
Qed.

(** Stopping allocates nothing, closes at most what was open, and does
    not touch the elapsed duration. *)
Lemma stop_effects (e : Env) (w : World) :
  let w' := run (stopRecording e) w in
  next_handle w' = next_handle w /\
  recordingDuration w' = recordingDuration w /\
  isRecording w' = false /\
  incl (sessions w') (sessions w) /\
  incl (intervals w') (intervals w).
Proof.
  assert (R : forall h l, incl (filter (fun x => negb (Nat.eqb x h)) l) l).
  { intros h l x Hx. now apply filter_In in Hx. }
  handler. branch; repeat split; auto using incl_refl.
Qed.

(** C7, amended. The guard is in the record control, not in
    [startRecording]: while transcribing, a press (and so any sequence of
    presses) is ignored and the whole state stays as it is; while
    recording, a press runs [stopRecording] and never [startRecording], so
    no handle is allocated, no session or timer is added, and the elapsed
    duration is not reset. *)
Theorem record_control_never_restarts (e : Env) (w : World) :
  (isTranscribing w = true ->
   forall es, presses es w = w) /\
  (isTranscribing w = false -> isRecording w = true ->
   let w' := run (recordButton_onPress e) w in
   w' = run (stopRecording e) w /\
   next_handle w' = next_handle w /\
   incl (sessions w') (sessions w) /\
   incl (intervals w') (intervals w) /\
   recordingDuration w' = recordingDuration w).
Proof.
  split.
  - intros Ht es. induction es as [|e' es IH]; simpl; [reflexivity|].
    replace (run (recordButton_onPress e') w) with w; [exact IH|].
    unfold run, recordButton_onPress, bind, gets, ret. now rewrite Ht.
  - intros Ht Hr w'.
    assert (E : w' = run (stopRecording e) w).
    { subst w'. unfold run, recordButton_onPress, bind, gets, ret.
      now rewrite Ht, Hr. }
    rewrite E. split; [reflexivity|].
    destruct (stop_effects e w) as (Hn & Hd & _ & Hs & Hi). auto.
Qed.

Lemma record_control_never_restarts_witness :
  presses [env_at 1; env_at 2; env_at 3]
    (upd_isTranscribing (fun _ => true) two_tasks)
  = upd_isTranscribing (fun _ => true) two_tasks /\
  recordingDuration
    (run (recordButton_onPress (env_at 1700000000000)) recording_world) = 5.
Proof.
  split.
  - exact (proj1 (record_control_never_restarts (env_at 0)
                    (upd_isTranscribing (fun _ => true) two_tasks))
             eq_refl [env_at 1; env_at 2; env_at 3]).
  - destruct (proj2 (record_control_never_restarts (env_at 1700000000000)
                       recording_world) eq_refl eq_refl)
      as (_ & _ & _ & _ & Hd).
    exact Hd.
Defined.

(** ** The earlier revision *)

(** Its pipeline, from the recorded file on, treats the collection as
    the current one does. *)
Lemma legacy_transcribe_tasks (e : Env) (w : World) (uri : jsstring) :
  tasks (run (Legacy.transcribeAudio e uri) w) =
  tasks (run (transcribeAudioFromFile e uri) w).
Proof.
  handler. branch; reflexivity.
Qed.

Lemma legacy_create_tasks (e : Env) (w : World) (text : jsstring) :
  tasks (run (Legacy.createTaskFromTranscription e text) w) =
  tasks (run (createTaskFromTranscription e text) w) /\
  calls (run (Legacy.createTaskFromTranscription e text) w) =
  calls (run (createTaskFromTranscription e text) w).
Proof.
  handler. branch; split; reflexivity.
Qed.

Lemma legacy_blank_text_is_no_speech
  (e : Env) (w : World) (uri audio text : jsstring) :
  FileSystem_readAsStringAsync e uri = Ok audio ->
  ai_transcribeAudio e audio = Ok text ->
  Forall (fun c => isWhiteSpace c = true) text ->
  let w' := run (Legacy.transcribeAudio e uri) w in
  alerts w' = alerts w ++ [NoSpeechDetected] /\
  created (calls w') = created (calls w) /\
  tasks w' = tasks w.
Proof.
  intros Hr Ht Hb. apply trim_nil_iff in Hb.
  handler. rewrite Hr. cbn. rewrite Ht, Hb. cbn.
  rewrite <- app_assoc, created_app, app_nil_r. auto.
Qed.

(** Its [startRecording] is not guarded by the state either; its record
    control is: a press while transcribing is ignored, and on a device a
    press while recording stops. *)
Lemma legacy_start_while_recording_opens_session :
  let w' := run (Legacy.startRecording (env_at 1700000000000))
              recording_world in
  sessions recording_world = [0%nat] /\ sessions w' = [2%nat; 0%nat].
Proof.
  split; vm_compute; reflexivity.
Qed.

Lemma legacy_record_control (e : Env) (w : World) :
  (isTranscribing w = true -> run (Legacy.recordButton_onPress e) w = w) /\
  (isTranscribing w = false -> isRecording w = true ->
   Platform_OS e = native ->
   run (Legacy.recordButton_onPress e) w = run (Legacy.stopRecording e) w).
Proof.
  split.
  - intros Ht. unfold run, Legacy.recordButton_onPress, bind, gets, ret.
    now rewrite Ht.
  - intros Ht Hr Hp. unfold run, Legacy.recordButton_onPress, bind, gets, ret.
    now rewrite Ht, Hp, Hr.
Qed.

(** * Further properties of the component *)

(** ** The duration display *)

Lemma app_same_tail_length {A} (a a' t t' : list A) :
  List.length t = List.length t' -> a ++ t = a' ++ t' -> a = a' /\ t = t'.
Proof.
  intros Hl H.
  assert (Ha : List.length a = List.length a').
  { apply (f_equal (@List.length A)) in H. rewrite !length_app in H. lia. }
  clear Hl. revert a' Ha H.
  induction a as [|x a IH]; intros [|y a'] Ha H; simpl in *;
    try discriminate; [now split|].
  injection H as -> H. injection Ha as Ha.
  destruct (IH a' Ha H) as [-> ->]. now split.
Qed.

Lemma padStart_seconds (s : Z) :
  0 <= s < 60 -> padStart 2 48%N (number_toString s) = digits 2 s.
Proof.
  intros H. rewrite <- (Z2Nat.id s) by lia.
  assert (Hn : (Z.to_nat s < 60)%nat) by lia.
  generalize dependent (Z.to_nat s). clear. intros n Hn.
  do 60 (destruct n as [|n]; [vm_compute; reflexivity|]). lia.
Qed.

Lemma digits_two (s : Z) :
  digits 2 s = [Z.to_N (48 + (s / 10) mod 10); Z.to_N (48 + s mod 10)].
Proof. reflexivity. Qed.

Lemma digits2_inj (a b : Z) :
  0 <= a < 60 -> 0 <= b < 60 -> digits 2 a = digits 2 b -> a = b.
Proof.
  intros Ha Hb H. rewrite !digits_two in H. injection H as H1 H2.
  assert (E1 : 48 + (a / 10) mod 10 = 48 + (b / 10) mod 10).
  { apply Z2N.inj; [| |exact H1]; Z.div_mod_to_equations; lia. }
  assert (E2 : 48 + a mod 10 = 48 + b mod 10).
  { apply Z2N.inj; [| |exact H2]; Z.div_mod_to_equations; lia. }
  clear H1 H2. Z.div_mod_to_equations. lia.
Qed.

(** For an elapsed time that is not negative, the display is the minutes,
    a colon, and the seconds on exactly two digits. *)
Lemma formatDuration_nonneg (s : Z) :
  0 <= s ->
  formatDuration s = number_toString (s / 60) ++ str ":" ++ digits 2 (s mod 60).
Proof.
  intros H. unfold formatDuration. cbv zeta.
  rewrite Z.rem_mod_nonneg by lia.
  rewrite padStart_seconds by (apply Z.mod_pos_bound; lia). reflexivity.
Qed.

(** X1. Two different elapsed times (not negative) never show as the
    same text. *)
Theorem formatDuration_inj (a b : Z) :
  0 <= a -> 0 <= b -> formatDuration a = formatDuration b -> a = b.
Proof.
  intros Ha Hb H. rewrite !formatDuration_nonneg in H by assumption.
  apply app_same_tail_length in H; [|reflexivity].
  destruct H as [Hm Hs]. apply number_toString_inj in Hm.
  apply (app_inv_head (str ":")) in Hs.
  apply digits2_inj in Hs; try (apply Z.mod_pos_bound; lia).
  rewrite (Z.div_mod a 60), (Z.div_mod b 60) by lia. lia.
Qed.

Lemma formatDuration_inj_witness :
  formatDuration 59 <> formatDuration 60.
Proof.
  intros H. apply formatDuration_inj in H; lia.
Defined.

(** ** Mount and loading *)

Lemma world_eta (w : World) :
  mkWorld (tasks w) (isRecording w) (recording w) (isTranscribing w)
    (user w) (editingTask w) (editModalVisible w) (editTitle w)
    (editDeadline w) (recordingDuration w) (recordingTimer w)
    (currentMediaRecorder w) (intervals w) (sessions w) (mediaRecorders w)
    (next_handle w) (alerts w) (console_errors w) (calls w)
    (open_streams w) = w.
Proof. now destruct w. Qed.

(** A handler made by the render of [w] and run on [w] is the handler of
    the current render. *)
Lemma loadTasks_current (e : Env) (w : World) :
  loadTasks e w = loadTasks_of w e w.
Proof. reflexivity. Qed.

Lemma last_cons {A} (l : list A) (x d : A) : last (x :: l) d = last l x.
Proof.
  revert x d. induction l as [|y l IH]; intros x d; [reflexivity|].
  change (last (x :: y :: l) d) with (last (y :: l) d).
  now rewrite (IH y d), (IH y x).
Qed.

Lemma auth_step (e : Env) (state : AuthState) (a : App) :
  let a' := onAuthStateChanged e state a in
  user (component a') = state_user state /\
  isLoading a' = state_isLoading state /\
  tasks (component a') = tasks (component a) /\
  calls (component a') = calls (component a) /\
  console_errors (component a') = console_errors (component a) /\
  alerts (component a') = alerts (component a).
Proof.
  unfold onAuthStateChanged. destruct (state_user state); cbn; auto 10.
Qed.

(** X2. Whatever the authentication service reports after the mount, and
    however often, the component takes over the reported user and loading
    flag but never requests the task list: the [loadTasks] that the
    callback calls is the first render's, whose [user] is [null], so the
    list stays empty and nothing is sent. *)
Theorem mount_never_lists (events : list (Env * AuthState)) :
  let a := fold_left (fun a ev => onAuthStateChanged (fst ev) (snd ev) a)
             events mounted in
  tasks (component a) = [] /\
  calls (component a) = [] /\
  user (component a) = last (map (fun ev => state_user (snd ev)) events) None /\
  isLoading a = last (map (fun ev => state_isLoading (snd ev)) events) true.
Proof.
  cbv zeta.
  assert (G : forall a0 : App,
             let a := fold_left
                        (fun a ev => onAuthStateChanged (fst ev) (snd ev) a)
                        events a0 in
             tasks (component a) = tasks (component a0) /\
             calls (component a) = calls (component a0) /\
             user (component a) =
               last (map (fun ev => state_user (snd ev)) events)
                 (user (component a0)) /\
             isLoading a =
               last (map (fun ev => state_isLoading (snd ev)) events)
                 (isLoading a0)).
  { induction events as [|[e st] evs IH]; intros a0; [cbn; auto|].
    cbn [fold_left fst snd map].
    destruct (IH (onAuthStateChanged e st a0)) as (T & C & U & L).
    destruct (auth_step e st a0) as (U0 & L0 & T0 & C0 & _).
    cbv zeta in *. rewrite T, C, U, L, T0, C0, U0, L0. cbn [map].
    rewrite !last_cons. auto. }
  exact (G mounted).
Qed.

(** X3. In a render that has a signed-in user, [loadTasks] sends one list
    request for that user; the answer replaces the cache wholesale, and a
    rejection leaves the cache as it was, logged but not shown. *)
Theorem loadTasks_replaces_cache (e : Env) (w : World) (u : User) :
  user w = Some u ->
  uid u <> [] ->
  let w' := run (loadTasks e) w in
  calls w' = calls w ++ [DbList (uid u)] /\
  alerts w' = alerts w /\
  (forall l, db_tasks_list e (uid u) = Ok l ->
             tasks w' = l /\ console_errors w' = console_errors w) /\
  (forall err, db_tasks_list e (uid u) = Throw err ->
               tasks w' = tasks w /\
               console_errors w' =
                 console_errors w ++ [str "Error loading tasks:"]).
Proof.
  intros Hu Hne. apply truthy_string_true in Hne.
  handler. rewrite Hu. cbn. rewrite Hne. cbn.
  destruct (db_tasks_list e (uid u)) as [l|err]; cbn;
    repeat split; try reflexivity; intros; try discriminate;
    try (injection H as <-); split; reflexivity.
Qed.

Lemma loadTasks_replaces_cache_witness :
  tasks (run (loadTasks (env_returning buy_milk 0)) two_tasks) = [] /\
  tasks (run (loadTasks (env_offline 0)) two_tasks) = [buy_milk; walk_dog].
Proof.
  split.
  - destruct (@loadTasks_replaces_cache (env_returning buy_milk 0) two_tasks
                alice eq_refl) as (_ & _ & Hok & _).
    + vm_compute. discriminate.
    + exact (proj1 (Hok [] eq_refl)).
  - destruct (@loadTasks_replaces_cache (env_offline 0) two_tasks
                alice eq_refl) as (_ & _ & _ & Hfail).
    + vm_compute. discriminate.
    + exact (proj1 (Hfail _ eq_refl)).
Defined.

(** X4. Without a user (or with a user whose id is empty) nothing is
    requested: [loadTasks] does nothing at all, and the two creations
    fail on [user.id] before any request and leave the list as it was. *)
Theorem no_user_no_request (e : Env) (w : World) (text : jsstring) :
  (user w = None \/ exists u, user w = Some u /\ uid u = []) ->
  run (loadTasks e) w = w /\
  (user w = None ->
   let w1 := run (createTaskFromTranscription e text) w in
   let w2 := run (addSampleTask e) w in
   calls w1 = calls w /\ tasks w1 = tasks w /\
   alerts w1 = alerts w ++
     [(str "Error", str "Failed to create task. Please try again.")] /\
   calls w2 = calls w /\ tasks w2 = tasks w /\ alerts w2 = alerts w).
Proof.
  intros H. split.
  - handler. destruct H as [-> | (u & -> & ->)]; reflexivity.
  - intros Hu. handler. rewrite Hu. cbn. auto 10.
Qed.

Lemma no_user_no_request_witness :
  run (loadTasks (env_at 0)) (initial_world None) = initial_world None /\
  calls (run (addSampleTask (env_at 0)) (initial_world None)) = [].
Proof.
  destruct (@no_user_no_request (env_at 0) (initial_world None) []
              (or_introl eq_refl)) as (H1 & H2).
  split; [exact H1|].
  exact (proj1 (proj2 (proj2 (proj2 (H2 eq_refl))))).
Defined.

(** ** Starting, counting, stopping *)

(** X5. [startRecording] has three outcomes. When the environment lets
    it through (in the browser: the stream is granted and the recorder
    starts), the component is recording, the elapsed time is zero, one new
    timer is set and registered, one new session (on a device) or one new
    stream and recorder (in the browser) is opened, and nothing is shown.
    When the browser grants the stream and the recorder then throws, the
    "Permission Denied" alert is shown, nothing is recording, and the
    stream that was acquired is left open: the controller is as before but
    for that one more open stream. In every other case the controller is
    exactly as before and exactly one alert is shown. The tasks, the edit
    form and the request log are never touched. *)
Theorem startRecording_outcomes (e : Env) (w : World) :
  let w' := run (startRecording e) w in
  tasks w' = tasks w /\ form w' = form w /\ calls w' = calls w /\
  (start_succeeds e = true ->
   isRecording w' = true /\
   recordingDuration w' = 0 /\
   recordingTimer w' = Some (S (next_handle w)) /\
   intervals w' = S (next_handle w) :: intervals w /\
   alerts w' = alerts w /\
   match Platform_OS e with
   | native =>
       recording w' = Some (next_handle w) /\
       sessions w' = next_handle w :: sessions w /\
       mediaRecorders w' = mediaRecorders w /\
       open_streams w' = open_streams w
   | web =>
       currentMediaRecorder w' = Some (next_handle w) /\
       mediaRecorders w' = next_handle w :: mediaRecorders w /\
       sessions w' = sessions w /\
       open_streams w' = S (open_streams w)
   end) /\
  (start_succeeds e = false ->
   List.length (alerts w') = S (List.length (alerts w)) /\
   (stream_left_open e = true ->
    controller w' = controller (upd_open_streams S w) /\
    alerts w' = alerts w ++
      [(str "Permission Denied",
        str "Please allow microphone access to record voice notes.")]) /\
   (stream_left_open e = false -> controller w' = controller w)).
Proof.
  unfold start_succeeds, stream_left_open, controller, form. handler.
  destruct (Platform_OS e); cbn.
  - destruct (mediaDevices_getUserMedia e) as [[[]|err]|]; cbn;
      [destruct (MediaRecorder_result e) as [[]|err]; cbn| |];
      repeat split; intros; try discriminate; try reflexivity;
      rewrite length_app; cbn; lia.
  - destruct (Audio_requestPermissionsAsync e) as [[]|err]; cbn;
      try (repeat split; intros; try discriminate; try reflexivity;
           rewrite length_app; cbn; lia).
    destruct (Audio_setAudioModeAsync e) as [[]|err]; cbn;
      try (repeat split; intros; try discriminate; try reflexivity;
           rewrite length_app; cbn; lia).
    destruct (Audio_Recording_createAsync e) as [[]|err]; cbn;
      repeat split; intros; try discriminate; try reflexivity;
      rewrite length_app; cbn; lia.
Qed.

Lemma startRecording_outcomes_witness :
  recordingDuration (run (startRecording (env_at 0)) recording_world) = 0 /\
  controller (run (startRecording env_denied) (initial_world (Some alice)))
  = controller (initial_world (Some alice)) /\
  open_streams (run (startRecording (env_browser 0))
                  (initial_world (Some alice))) = 1%nat /\
  controller (run (startRecording env_browser_no_recorder)
                (initial_world (Some alice)))
  = controller (upd_open_streams S (initial_world (Some alice))).
Proof.
  split; [|split; [|split]].
  - destruct (startRecording_outcomes (env_at 0) recording_world)
      as (_ & _ & _ & Hok & _).
    exact (proj1 (proj2 (Hok eq_refl))).
  - destruct (startRecording_outcomes env_denied (initial_world (Some alice)))
      as (_ & _ & _ & _ & Hno).
    exact (proj2 (proj2 (Hno eq_refl)) eq_refl).
  - destruct (startRecording_outcomes (env_browser 0)
                (initial_world (Some alice))) as (_ & _ & _ & Hok & _).
    destruct (Hok eq_refl) as (_ & _ & _ & _ & _ & Hweb).
    exact (proj2 (proj2 (proj2 Hweb))).
  - destruct (startRecording_outcomes env_browser_no_recorder
                (initial_world (Some alice))) as (_ & _ & _ & _ & Hno).
    exact (proj1 (proj1 (proj2 (Hno eq_refl)) eq_refl)).
Defined.

(** The timer that a start which goes through sets. *)
Lemma start_sets_timer (e : Env) (w : World) :
  start_succeeds e = true ->
  let w' := run (startRecording e) w in
  recordingDuration w' = 0 /\
  recordingTimer w' = Some (S (next_handle w)) /\
  intervals w' = S (next_handle w) :: intervals w.
Proof.
  unfold start_succeeds. handler. destruct (Platform_OS e); cbn.
  - destruct (mediaDevices_getUserMedia e) as [[[]|err]|]; cbn;
      [destruct (MediaRecorder_result e) as [[]|err]; cbn| |];
      intros; try discriminate; auto.
  - destruct (Audio_requestPermissionsAsync e) as [[]|err]; cbn;
      try (intros; discriminate).
    destruct (Audio_setAudioModeAsync e) as [[]|err]; cbn;
      try (intros; discriminate).
    destruct (Audio_Recording_createAsync e) as [[]|err]; cbn;
      intros; try discriminate; auto.
Qed.

(** As [branch], on the equation that names the run of a handler. *)
Ltac branch_in E :=
  repeat (cbn in E;
          match type of E with
          | context [match ?x with _ => _ end] =>
              lazymatch x with
              | context [match _ with _ => _ end] => fail
              | _ => destruct x
              end
          end);
  cbn in E.

(** Name the run of a handler, split it by cases, and put each result
    back. *)
Ltac by_cases_of_run :=
  unfold run;
  match goal with
  | |- context [?h ?w] =>
      match type of (h w) with
      | (Result _ * World)%type =>
          let p := fresh "p" in
          let E := fresh "E" in
          remember (h w) as p eqn:E;
          autounfold with handlers in E;
          branch_in E; subst p; cbn
      end
  end.

Lemma stop_resets (e : Env) (w : World) :
  let w' := run (stopRecording e) w in
  fst (stopRecording e w) = Ok tt /\
  isRecording w' = false /\
  isTranscribing w' = false /\
  recordingTimer w' = None /\
  intervals w' = match recordingTimer w with
                 | Some t => remove_handle t (intervals w)
                 | None => intervals w
                 end /\
  recordingDuration w' = recordingDuration w /\
  form w' = form w /\
  user w' = user w.
Proof.
  unfold form. by_cases_of_run; repeat split; reflexivity.
Qed.

Lemma existsb_remove_handle (t : nat) (l : list nat) :
  existsb (Nat.eqb t) (remove_handle t l) = false.
Proof.
  unfold remove_handle. induction l as [|x l IH]; simpl; [reflexivity|].
  destruct (Nat.eqb x t) eqn:E; simpl; [exact IH|].
  rewrite Nat.eqb_sym, E. exact IH.
Qed.

(** X6. However [stopRecording] goes (whatever the platform, the state
    and the answers of the environment), it returns normally with the
    component neither recording nor transcribing, the timer cell empty and
    the timer it held cleared, so that a late firing of that timer changes
    nothing; the elapsed time, the edit form and the user are untouched. *)
Theorem stopRecording_always_resets (e : Env) (w : World) :
  let w' := run (stopRecording e) w in
  fst (stopRecording e w) = Ok tt /\
  isRecording w' = false /\
  isTranscribing w' = false /\
  recordingTimer w' = None /\
  (forall t, recordingTimer w = Some t ->
             ~ In t (intervals w') /\ run (interval_fired t) w' = w') /\
  incl (intervals w') (intervals w) /\
  recordingDuration w' = recordingDuration w /\
  form w' = form w /\
  user w' = user w.
Proof.
  destruct (stop_resets e w) as (H0 & H1 & H2 & H3 & H4 & H5 & H6 & H7).
  cbv zeta in *.
  split; [exact H0|]. split; [exact H1|]. split; [exact H2|].
  split; [exact H3|]. split; [|split; [|auto]].
  - intros t Ht. rewrite Ht in H4. split.
    + rewrite H4. intros Hin. apply filter_In in Hin.
      destruct Hin as [_ Hin]. now rewrite Nat.eqb_refl in Hin.
    + unfold run at 1. unfold interval_fired, bind, gets, ret.
      rewrite H4, existsb_remove_handle. reflexivity.
  - rewrite H4. destruct (recordingTimer w); [|apply incl_refl].
    intros x Hx. now apply filter_In in Hx.
Qed.

Lemma stopRecording_always_resets_witness :
  run (interval_fired 1%nat)
    (run (stopRecording (env_offline 0)) recording_world)
  = run (stopRecording (env_offline 0)) recording_world.
Proof.
  destruct (stopRecording_always_resets (env_offline 0) recording_world)
    as (_ & _ & _ & _ & H & _).
  exact (proj2 (H 1%nat eq_refl)).
Defined.

(** A firing of a live timer adds one second; of a cleared one, nothing. *)
Lemma tick_live (t : nat) (w : World) :
  In t (intervals w) ->
  run (interval_fired t) w = upd_recordingDuration (fun prev => prev + 1) w.
Proof.
  intros H. unfold run, interval_fired, bind, gets, ret, setRecordingDuration,
    modify.
  replace (existsb (Nat.eqb t) (intervals w)) with true; [reflexivity|].
  symmetry. apply existsb_exists. exists t. split; [exact H|].
  apply Nat.eqb_refl.
Qed.

Lemma ticks_live (n t : nat) (w : World) :
  In t (intervals w) ->
  let w' := ticks n t w in
  recordingDuration w' = recordingDuration w + Z.of_nat n /\
  intervals w' = intervals w /\
  recordingTimer w' = recordingTimer w /\
  isRecording w' = isRecording w /\
  tasks w' = tasks w.
Proof.
  intros H. induction n as [|n IH]; cbv zeta in *.
  - cbn. repeat split; lia.
  - unfold ticks in *. rewrite Nat.iter_succ.
    destruct IH as (D & I & T & R & K).
    rewrite tick_live by (rewrite I; exact H). cbn.
    rewrite D, I, T, R, K. repeat split; lia.
Qed.

(** X7. After a start that went through, the elapsed time is the number
    of firings of the timer it set; once [stopRecording] has run, further
    firings of that timer leave the whole state as it is, so the elapsed
    time stays at the count reached. *)
Theorem duration_counts_ticks (e e' : Env) (w : World) (n m : nat) :
  start_succeeds e = true ->
  let t := S (next_handle w) in
  let w1 := ticks n t (run (startRecording e) w) in
  let w2 := run (stopRecording e') w1 in
  recordingDuration w1 = Z.of_nat n /\
  recordingDuration w2 = Z.of_nat n /\
  ticks m t w2 = w2.
Proof.
  intros Hs t w1 w2.
  destruct (@start_sets_timer e w Hs) as (D0 & T0 & I0).
  assert (Hin : In t (intervals (run (startRecording e) w))).
  { rewrite I0. now left. }
  destruct (ticks_live n t _ Hin) as (D1 & _ & T1 & _).
  fold w1 in D1, T1. rewrite D0 in D1. rewrite T0 in T1.
  destruct (stop_resets e' w1) as (_ & _ & _ & _ & I2 & D2 & _).
  fold w2 in I2, D2. rewrite T1 in I2.
  repeat split; [lia | lia |].
  assert (F : run (interval_fired t) w2 = w2).
  { unfold run, interval_fired, bind, gets, ret.
    rewrite I2, existsb_remove_handle. reflexivity. }
  unfold ticks. induction m as [|m IH]; [reflexivity|].
  rewrite Nat.iter_succ, IH. exact F.
Qed.

Lemma duration_counts_ticks_witness :
  recordingDuration
    (ticks 7 1%nat (run (startRecording (env_at 0))
                      (initial_world (Some alice)))) = 7.
Proof.
  exact (proj1 (@duration_counts_ticks (env_at 0) (env_at 0)
                  (initial_world (Some alice)) 7 0 eq_refl)).
Defined.

(** X8. [startRecording] never clears a timer that is already set: when
    it goes through while a timer is running, the cell is overwritten,
    and the [stopRecording] that follows clears only the new timer; the
    old one stays registered and keeps adding seconds. *)
Theorem restart_leaves_old_timer (e1 e2 : Env) (w : World) (t : nat) :
  recordingTimer w = Some t ->
  In t (intervals w) ->
  (t < next_handle w)%nat ->
  start_succeeds e1 = true ->
  let w' := run (stopRecording e2) (run (startRecording e1) w) in
  recordingTimer w' = None /\
  In t (intervals w') /\
  recordingDuration (run (interval_fired t) w') = recordingDuration w' + 1.
Proof.
  intros Ht Hin Hlt Hs w'.
  destruct (@start_sets_timer e1 w Hs) as (_ & T1 & I1).
  destruct (stop_resets e2 (run (startRecording e1) w))
    as (_ & _ & _ & T2 & I2 & _).
  fold w' in T2, I2. rewrite T1, I1 in I2.
  assert (Hin' : In t (intervals w')).
  { rewrite I2. apply filter_In. split; [now right|].
    apply negb_true_iff, Nat.eqb_neq. lia. }
  split; [exact T2|]. split; [exact Hin'|].
  now rewrite (tick_live _ _ Hin').
Qed.

Lemma restart_leaves_old_timer_witness :
  In 1%nat (intervals (run (stopRecording (env_at 0))
                         (run (startRecording (env_at 0)) recording_world))).
Proof.
  refine (proj1 (proj2 (@restart_leaves_old_timer (env_at 0) (env_at 0)
                          recording_world 1%nat eq_refl _ _ eq_refl))).
  - left. reflexivity.
  - unfold recording_world. simpl. lia.
Defined.

(** X9. From the idle state (not recording, not transcribing, no timer,
    no native recording, no active browser recorder) [stopRecording]
    changes nothing at all, on either platform. *)
Theorem stop_when_idle_is_noop (e : Env) (w : World) :
  isRecording w = false ->
  isTranscribing w = false ->
  recordingTimer w = None ->
  recording w = None ->
  mediaRecorders w = [] ->
  stopRecording e w = (Ok tt, w).
Proof.
  intros H1 H2 H3 H4 H5.
  destruct w as
    [tk isR rec isT us eT eV eTi eD rD rT cMR iv ss mR nh al ce cs os].
  cbn in H1, H2, H3, H4, H5. subst. handler.
  destruct (Platform_OS e); cbn; [|reflexivity].
  destruct cMR; reflexivity.
Qed.

Lemma stop_when_idle_is_noop_witness :
  stopRecording (env_browser 0) two_tasks = (Ok tt, two_tasks).
Proof.
  apply stop_when_idle_is_noop; reflexivity.
Defined.

(** X10. End to end on a device: when the recording is finalized to a
    file, the file is read, a text that is not blank is recognized and the
    creation is accepted, [stopRecording] ends with the returned record
    first in the list, the session closed, the recording cell empty and
    the flags down, after exactly the three requests read, transcribe,
    create, and it shows the "Task Created!" notice naming the trimmed
    text. *)
Theorem native_pipeline_creates_task
  (e : Env) (w : World) (r : nat) (u : User)
  (uri audio text : jsstring) (newTask : Task) :
  Platform_OS e = native ->
  recording w = Some r ->
  user w = Some u ->
  recording_stopAndUnloadAsync e = Ok tt ->
  recording_getURI e = Some uri ->
  uri <> [] ->
  FileSystem_readAsStringAsync e uri = Ok audio ->
  ai_transcribeAudio e audio = Ok text ->
  trim text <> [] ->
  db_tasks_create e (draft_of e (uid u) (trim text)) = Ok newTask ->
  let w' := run (stopRecording e) w in
  tasks w' = newTask :: tasks w /\
  calls w' = calls w ++ [FsRead uri; AiTranscribe audio (str "en");
                         DbCreate (draft_of e (uid u) (trim text))] /\
  alerts w' = alerts w ++
    [(str "Task Created!",
      [34%N] ++ trim text ++ [34%N] ++ str " has been added to your tasks.")] /\
  console_errors w' = console_errors w /\
  sessions w' = remove_handle r (sessions w) /\
  recording w' = None /\
  isRecording w' = false /\ isTranscribing w' = false.
Proof.
  intros Hp Hr Hu Hs Hg Hne Hf Ht Hb Hc.
  apply truthy_string_true in Hne, Hb. unfold draft_of in *.
  handler. rewrite Hp, Hr. cbn.
  destruct (recordingTimer w); cbn; rewrite Hs; cbn; rewrite Hg, Hne; cbn;
    rewrite Hf; cbn; rewrite Ht; cbn; rewrite Hb; cbn; rewrite Hu; cbn;
    rewrite Hc; cbn; rewrite <- !app_assoc; cbn; repeat split; reflexivity.
Qed.

Lemma native_pipeline_creates_task_witness :
  tasks (run (stopRecording (env_pipeline 1700000000000))
           (upd_tasks (fun _ => []) recording_world)) = [buy_milk].
Proof.
  refine (proj1 (@native_pipeline_creates_task (env_pipeline 1700000000000)
                   (upd_tasks (fun _ => []) recording_world) 0%nat alice
                   (str "file:///rec.wav") (str "UklGRg==")
                   (str "  buy milk ") buy_milk
                   eq_refl eq_refl eq_refl eq_refl eq_refl _ eq_refl eq_refl
                   _ eq_refl)); vm_compute; discriminate.
Defined.

(** X11. [transcribeAudio] always answers the user: whatever the
    services reply and whoever is signed in, it returns normally and
    shows exactly one alert. *)
Theorem transcribeAudio_shows_one_alert (e : Env) (w : World)
  (audio : jsstring) :
  fst (transcribeAudio e audio w) = Ok tt /\
  List.length (alerts (run (transcribeAudio e audio) w)) =
  S (List.length (alerts w)).
Proof.
  by_cases_of_run; rewrite length_app; cbn; split; (reflexivity || lia).
Qed.

(** X12. In the browser [stopRecording] only stops the recorder that is
    current and active: it sends no request, shows nothing and keeps the
    tasks and the native cells; the transcription is not part of it. *)
Theorem browser_stop_only_stops_recorder (e : Env) (w : World) :
  Platform_OS e = web ->
  let w' := run (stopRecording e) w in
  calls w' = calls w /\ alerts w' = alerts w /\ tasks w' = tasks w /\
  sessions w' = sessions w /\ recording w' = recording w /\
  mediaRecorders w' =
    match currentMediaRecorder w with
    | Some r => remove_handle r (mediaRecorders w)
    | None => mediaRecorders w
    end.
Proof.
  intros Hp. handler. rewrite Hp. cbn.
  destruct (recordingTimer w); cbn; destruct (currentMediaRecorder w) as [r|];
    cbn; try (repeat split; reflexivity);
    destruct (existsb (Nat.eqb r) (mediaRecorders w)) eqn:E; cbn;
    repeat split; try reflexivity;
    unfold remove_handle; symmetry; apply forallb_filter_id;
    apply forallb_forall; intros x Hx; apply negb_true_iff, Nat.eqb_neq;
    intros ->;
    (assert (existsb (Nat.eqb r) (mediaRecorders w) = true)
       by (apply existsb_exists; exists r; split;
           [exact Hx | apply Nat.eqb_refl]));
    congruence.
Qed.

Lemma browser_stop_only_stops_recorder_witness :
  let w := run (startRecording (env_browser 0)) two_tasks in
  mediaRecorders w = [0%nat] /\
  mediaRecorders (run (stopRecording (env_browser 0)) w) = [] /\
  calls (run (stopRecording (env_browser 0)) w) = [].
Proof.
  intros w.
  destruct (@browser_stop_only_stops_recorder (env_browser 0) w eq_refl)
    as (Hc & _ & _ & _ & _ & Hm).
  split; [reflexivity|]. split; [exact Hm | exact Hc].
Defined.

(** ** The task store, further *)

Lemma edit_run (e : Env) (w : World) (t : Task) :
  editingTask w = Some t ->
  let w' := run (saveTaskEdit e) w in
  calls w' = calls w ++ [DbUpdate (id t) (edit_patch e w)] /\
  alerts w' = alerts w /\
  match db_tasks_update e (id t) (edit_patch e w) with
  | Ok _ =>
      tasks w' = map (edited t (editTitle w) (editDeadline w)) (tasks w) /\
      console_errors w' = console_errors w /\
      editModalVisible w' = false /\ editingTask w' = None /\
      editTitle w' = editTitle w /\ editDeadline w' = editDeadline w
  | Throw _ =>
      tasks w' = tasks w /\
      console_errors w' = console_errors w ++ [str "Error updating task:"] /\
      form w' = form w
  end.
Proof.
  intros Ht. unfold form, edit_patch, edited. handler. rewrite Ht. cbn.
  destruct (db_tasks_update e _ _); cbn; rewrite ?Ht; auto 10.
Qed.

Lemma toggle_run (e : Env) (w : World) (task : Task) :
  let w' := run (toggleTaskCompletion e task) w in
  calls w' = calls w ++ [DbUpdate (id task) (toggle_patch e task)] /\
  alerts w' = alerts w /\
  console_errors w' =
    match db_tasks_update e (id task) (toggle_patch e task) with
    | Ok _ => console_errors w
    | Throw _ => console_errors w ++ [str "Error updating task:"]
    end.
Proof.
  unfold toggle_patch. handler.
  destruct (db_tasks_update e _ _); cbn; auto.
Qed.

Lemma delete_run (e : Env) (w : World) (k : jsstring) :
  let w' := run (deleteTask e k) w in
  calls w' = calls w ++ [DbDelete k] /\
  console_errors w' =
    match db_tasks_delete e k with
    | Ok _ => console_errors w
    | Throw _ => console_errors w ++ [str "Error deleting task:"]
    end.
Proof.
  handler. destruct (db_tasks_delete e k); cbn; auto.
Qed.

(** The title that [addSampleTask] picks. *)
Lemma sample_run (e : Env) (w : World) (u : User) :
  user w = Some u ->
  let title := nth (Math_random_index e 8) sampleTasks [] in
  let w' := run (addSampleTask e) w in
  calls w' = calls w ++ [DbCreate (draft_of e (uid u) title)] /\
  alerts w' = alerts w /\
  match db_tasks_create e (draft_of e (uid u) title) with
  | Ok newTask =>
      tasks w' = newTask :: tasks w /\ console_errors w' = console_errors w
  | Throw _ =>
      tasks w' = tasks w /\
      console_errors w' =
        console_errors w ++ [str "Error creating sample task:"]
  end.
Proof.
  intros Hu. unfold draft_of. handler. rewrite Hu. cbn.
  change (Datatypes.length sampleTasks) with 8%nat.
  destruct (db_tasks_create e _); cbn; auto.
Qed.

(** X13. No store write is optimistic: when the service rejects the
    update, the delete or the creation, the local list is exactly as
    before, the user is shown nothing, and the failure is only logged;
    a rejected save also leaves the edit form open as it was typed. *)
Theorem rejected_writes_change_nothing (e : Env) (w : World) :
  (forall task err,
      db_tasks_update e (id task) (toggle_patch e task) = Throw err ->
      let w' := run (toggleTaskCompletion e task) w in
      tasks w' = tasks w /\ alerts w' = alerts w /\
      console_errors w' = console_errors w ++ [str "Error updating task:"]) /\
  (forall k err,
      db_tasks_delete e k = Throw err ->
      let w' := run (deleteTask e k) w in
      tasks w' = tasks w /\ alerts w' = alerts w /\
      console_errors w' = console_errors w ++ [str "Error deleting task:"]) /\
  (forall t err,
      editingTask w = Some t ->
      db_tasks_update e (id t) (edit_patch e w) = Throw err ->
      let w' := run (saveTaskEdit e) w in
      tasks w' = tasks w /\ alerts w' = alerts w /\ form w' = form w /\
      console_errors w' = console_errors w ++ [str "Error updating task:"]) /\
  (forall u err,
      user w = Some u ->
      db_tasks_create e
        (draft_of e (uid u) (nth (Math_random_index e 8) sampleTasks []))
        = Throw err ->
      let w' := run (addSampleTask e) w in
      tasks w' = tasks w /\ alerts w' = alerts w /\
      console_errors w' =
        console_errors w ++ [str "Error creating sample task:"]).
Proof.
  split; [|split; [|split]].
  - intros task err H w'. subst w'.
    destruct (toggle_run e w task) as (_ & A & C).
    rewrite toggle_tasks, H in *. auto.
  - intros k err H w'. subst w'.
    destruct (delete_run e w k) as (_ & C).
    rewrite delete_tasks, delete_alerts, H in *. auto.
  - intros t err Ht H w'. subst w'.
    destruct (edit_run e w Ht) as (_ & A & R). rewrite H in R.
    destruct R as (T & C & F). auto.
  - intros u err Hu H w'. subst w'.
    destruct (sample_run e w Hu) as (_ & A & R). cbv zeta in R.
    rewrite H in R. destruct R as (T & C). auto.
Qed.

Lemma rejected_writes_change_nothing_witness :
  tasks (run (toggleTaskCompletion (env_offline 0) buy_milk) two_tasks)
  = [buy_milk; walk_dog] /\
  form (run (saveTaskEdit (env_offline 0)) editing_world)
  = form editing_world.
Proof.
  destruct (rejected_writes_change_nothing (env_offline 0) two_tasks)
    as (H1 & _).
  destruct (rejected_writes_change_nothing (env_offline 0) editing_world)
    as (_ & _ & H3 & _).
  split.
  - exact (proj1 (H1 buy_milk _ eq_refl)).
  - exact (proj1 (proj2 (proj2 (H3 buy_milk _ eq_refl eq_refl)))).
Defined.

Lemma toggled_idem (task t : Task) :
  toggled task (toggled task t) = toggled task t.
Proof.
  unfold toggled. destruct (JS.eqb (id t) (id task)) eqn:E; cbn; rewrite E;
    reflexivity.
Qed.

(** X14. The new flag is computed from the item that was tapped, not
    from the stored record: two accepted toggles issued from the same
    rendered item leave the list as one toggle does. *)
Theorem double_tap_toggles_once (e1 e2 : Env) (w : World) (task : Task) :
  db_tasks_update e1 (id task) (toggle_patch e1 task) = Ok tt ->
  db_tasks_update e2 (id task) (toggle_patch e2 task) = Ok tt ->
  tasks (run (toggleTaskCompletion e2 task)
           (run (toggleTaskCompletion e1 task) w))
  = tasks (run (toggleTaskCompletion e1 task) w).
Proof.
  intros H1 H2. rewrite !toggle_tasks, H1, H2, map_map.
  apply map_ext. intros t. apply toggled_idem.
Qed.

Lemma double_tap_toggles_once_witness :
  map completed
    (tasks (run (toggleTaskCompletion (env_at 2) buy_milk)
              (run (toggleTaskCompletion (env_at 1) buy_milk) two_tasks)))
  = [1; 1].
Proof.
  rewrite (@double_tap_toggles_once (env_at 1) (env_at 2) two_tasks buy_milk
             eq_refl eq_refl).
  reflexivity.
Defined.

Lemma NoDup_ids_unique (l : list Task) (x t : Task) :
  NoDup (map id l) -> In x l -> In t l -> id x = id t -> x = t.
Proof.
  induction l as [|y l IH]; simpl; [tauto|].
  intros Hn Hx Ht E. inversion Hn as [|? ? Hy Hn']; subst.
  destruct Hx as [-> | Hx], Ht as [-> | Ht]; auto.
  - exfalso. apply Hy. rewrite E. now apply in_map.
  - exfalso. apply Hy. rewrite <- E. now apply in_map.
Qed.

(** X15. Toggling the stored item twice, each time from the item as it
    is then stored, brings the list back, provided the ids are unique and
    the flag is 0 or 1. *)
Theorem toggle_twice_restores_list (e1 e2 : Env) (w : World) (t : Task) :
  In t (tasks w) ->
  NoDup (map id (tasks w)) ->
  completed t = 0 \/ completed t = 1 ->
  db_tasks_update e1 (id t) (toggle_patch e1 t) = Ok tt ->
  db_tasks_update e2 (id t) (toggle_patch e2 (toggled t t)) = Ok tt ->
  In (toggled t t) (tasks (run (toggleTaskCompletion e1 t) w)) /\
  tasks (run (toggleTaskCompletion e2 (toggled t t))
           (run (toggleTaskCompletion e1 t) w))
  = tasks w.
Proof.
  intros Hin Hn Hc H1 H2.
  assert (Hid : id (toggled t t) = id t).
  { unfold toggled. now rewrite eqb_refl. }
  split.
  - rewrite toggle_tasks, H1. now apply in_map.
  - rewrite toggle_tasks, Hid, H2, toggle_tasks, H1, map_map.
    rewrite <- (map_id (tasks w)) at 2. apply map_ext_in.
    intros x Hx. destruct (JS.eqb (id x) (id t)) eqn:E.
    + apply eqb_eq in E. rewrite (@NoDup_ids_unique _ _ _ Hn Hx Hin E).
      now apply toggled_twice.
    + assert (Hx1 : toggled t x = x) by (unfold toggled; now rewrite E).
      rewrite Hx1. unfold toggled at 1. now rewrite Hid, E.
Qed.

Lemma toggle_twice_restores_list_witness :
  tasks (run (toggleTaskCompletion (env_at 2) (toggled buy_milk buy_milk))
           (run (toggleTaskCompletion (env_at 1) buy_milk) two_tasks))
  = [buy_milk; walk_dog].
Proof.
  refine (proj2 (@toggle_twice_restores_list (env_at 1) (env_at 2) two_tasks
                   buy_milk _ _ (or_introl eq_refl) eq_refl eq_refl)).
  - left. reflexivity.
  - repeat constructor; vm_compute; intuition discriminate.
Defined.

(** X16. What the checkbox shows after an accepted toggle. The current
    revision checks the box when [completed > 0] but toggles on the
    truthiness of [completed]: the records with the tapped item's id show
    the opposite of the tapped item when its flag is not negative, and
    stay unchecked when it is negative. The earlier revision, which
    checks the box on truthiness, always shows the opposite. *)
Theorem checkbox_after_toggle (e : Env) (w : World) (task t' : Task) :
  db_tasks_update e (id task) (toggle_patch e task) = Ok tt ->
  In t' (tasks (run (toggleTaskCompletion e task) w)) ->
  id t' = id task ->
  (completed t' = 0 \/ completed t' = 1) /\
  (0 <= completed task ->
   checkbox_checked t' = negb (checkbox_checked task)) /\
  (completed task < 0 ->
   checkbox_checked t' = false /\ checkbox_checked task = false) /\
  legacy_checkbox_checked t' = negb (legacy_checkbox_checked task).
Proof.
  intros H Hin Hid. rewrite toggle_tasks, H in Hin.
  apply in_map_iff in Hin. destruct Hin as (x & <- & _).
  unfold toggled in *. destruct (JS.eqb (id x) (id task)) eqn:E.
  - unfold checkbox_checked, legacy_checkbox_checked, truthy_number. cbn.
    destruct (Z.eqb_spec (completed task) 0) as [Hz|Hz]; cbn.
    + rewrite Hz. repeat split; auto; lia.
    + repeat split; auto; intros;
        destruct (Z.ltb_spec 0 (completed task)); auto; lia.
  - apply eqb_neq in E. contradiction.
Qed.

Lemma checkbox_after_toggle_witness :
  checkbox_checked
    (with_completed buy_milk 1) = negb (checkbox_checked buy_milk).
Proof.
  refine (proj1 (proj2 (@checkbox_after_toggle (env_at 0) two_tasks buy_milk
                          (with_completed buy_milk 1) eq_refl _ eq_refl)) _).
  - left. reflexivity.
  - vm_compute. discriminate.
Defined.

(** X17. An edit, accepted or not, keeps the length and order of the
    list and every record with another id; in the records with the edited
    id it changes no field but the title and the deadline: the flag, the
    owner and both timestamps stay. *)
Theorem edit_changes_only_title_and_deadline (e : Env) (w : World) :
  let w' := run (saveTaskEdit e) w in
  Forall2
    (fun x x' =>
       id x' = id x /\ user_id x' = user_id x /\
       description x' = description x /\ completed x' = completed x /\
       reminder_enabled x' = reminder_enabled x /\
       reminder_time x' = reminder_time x /\
       created_at x' = created_at x /\ updated_at x' = updated_at x /\
       (forall t, editingTask w = Some t -> id x <> id t -> x' = x))
    (tasks w) (tasks w').
Proof.
  cbv zeta.
  assert (R : forall l : list Task,
             Forall2 (fun x x' =>
               id x' = id x /\ user_id x' = user_id x /\
               description x' = description x /\ completed x' = completed x /\
               reminder_enabled x' = reminder_enabled x /\
               reminder_time x' = reminder_time x /\
               created_at x' = created_at x /\ updated_at x' = updated_at x /\
               (forall t, editingTask w = Some t -> id x <> id t -> x' = x))
               l l).
  { induction l; constructor; auto 12. }
  destruct (editingTask w) as [t|] eqn:Ht.
  - rewrite (@edit_tasks e w t Ht).
    destruct (db_tasks_update e (id t) (edit_patch e w)); [|apply R].
    clear R. induction (tasks w) as [|x l IH]; cbn; constructor; [|exact IH].
    unfold edited. destruct (JS.eqb (id x) (id t)) eqn:E; cbn.
    + apply eqb_eq in E. repeat split; try reflexivity.
      intros t0 [= <-] Hne. contradiction.
    + repeat split; reflexivity.
  - replace (tasks (run (saveTaskEdit e) w)) with (tasks w); [apply R|].
    handler. now rewrite Ht.
Qed.

(** X18. Opening the edit form on a stored task and saving it untouched
    (ids unique, update accepted) sends the task's own title and its
    shown deadline ([null] when none shows), closes the form, and leaves
    every title, flag and shown deadline of the list as it was. *)
Theorem untouched_form_saves_same_view (e : Env) (w : World) (t : Task) :
  In t (tasks w) ->
  NoDup (map id (tasks w)) ->
  db_tasks_update e (id t) (edit_patch e (run (openEditModal t) w)) = Ok tt ->
  let w1 := run (openEditModal t) w in
  let w2 := run (saveTaskEdit e) w1 in
  editingTask w1 = Some t /\ editModalVisible w1 = true /\
  p_title (edit_patch e w1) = Some (title t) /\
  p_deadline (edit_patch e w1) = Some (deadline_shown t) /\
  map title (tasks w2) = map title (tasks w) /\
  map completed (tasks w2) = map completed (tasks w) /\
  map deadline_shown (tasks w2) = map deadline_shown (tasks w) /\
  editModalVisible w2 = false /\ editingTask w2 = None.
Proof.
  intros Hin Hn Hok w1 w2.
  assert (E1 : editingTask w1 = Some t) by reflexivity.
  assert (T1 : tasks w1 = tasks w) by reflexivity.
  assert (Ti : editTitle w1 = title t) by reflexivity.
  assert (Dl : editDeadline w1 =
               match deadline t with
               | Some d => if truthy_string d then d else []
               | None => []
               end) by reflexivity.
  assert (Ds : (if truthy_string (editDeadline w1)
                then Some (editDeadline w1) else None) = deadline_shown t).
  { rewrite Dl. unfold deadline_shown.
    destruct (deadline t) as [d|]; [|reflexivity].
    destruct (truthy_string d) eqn:Hd; [now rewrite Hd | reflexivity]. }
  destruct (@edit_run e w1 t E1) as (_ & _ & R). fold w2 in R.
  fold w1 in Hok. rewrite Hok in R.
  destruct R as (T2 & _ & V2 & E2 & _).
  split; [exact E1|]. split; [reflexivity|].
  split; [unfold edit_patch; now rewrite Ti|].
  split; [unfold edit_patch; cbn [p_deadline]; now rewrite Ds|].
  rewrite T2, T1, Ti, !map_map.
  repeat split; try assumption; apply map_ext_in; intros x Hx;
    unfold edited; destruct (JS.eqb (id x) (id t)) eqn:E; try reflexivity;
    apply eqb_eq in E; rewrite (@NoDup_ids_unique _ _ _ Hn Hx Hin E);
    try reflexivity.
  unfold deadline_shown at 1. cbn [deadline with_title_deadline].
  rewrite Ds. reflexivity.
Qed.

Lemma untouched_form_saves_same_view_witness :
  map title (tasks (run (saveTaskEdit (env_at 5))
                      (run (openEditModal walk_dog) two_tasks)))
  = [str "buy milk"; str "walk the dog"].
Proof.
  refine (proj1 (proj2 (proj2 (proj2 (proj2
            (@untouched_form_saves_same_view (env_at 5) two_tasks walk_dog
               _ _ eq_refl)))))).
  - right. left. reflexivity.
  - repeat constructor; vm_compute; intuition discriminate.
Defined.

Lemma map_absent (f : Task -> Task) (k : jsstring) (l : list Task) :
  ~ In k (map id l) ->
  (forall x, id x <> k -> f x = x) ->
  map f l = l.
Proof.
  intros Hk Hf. rewrite <- (map_id l) at 2. apply map_ext_in.
  intros x Hx. apply Hf. intros <-. apply Hk. now apply in_map.
Qed.

(** X19. A toggle, a delete or an edit aimed at an id that no stored
    record has leaves the list as it was, yet the request is sent all the
    same. *)
Theorem absent_id_changes_nothing (e : Env) (w : World) (task : Task) :
  ~ In (id task) (map id (tasks w)) ->
  (let w' := run (toggleTaskCompletion e task) w in
   tasks w' = tasks w /\
   calls w' = calls w ++ [DbUpdate (id task) (toggle_patch e task)]) /\
  (let w' := run (deleteTask e (id task)) w in
   tasks w' = tasks w /\ calls w' = calls w ++ [DbDelete (id task)]) /\
  (editingTask w = Some task ->
   let w' := run (saveTaskEdit e) w in
   tasks w' = tasks w /\
   calls w' = calls w ++ [DbUpdate (id task) (edit_patch e w)]).
Proof.
  intros Hk. split; [|split].
  - cbv zeta. split; [|apply toggle_run].
    rewrite toggle_tasks. destruct (db_tasks_update e _ _); [|reflexivity].
    apply (@map_absent _ _ _ Hk). intros x Hx. unfold toggled.
    apply eqb_neq in Hx. now rewrite Hx.
  - cbv zeta. split; [|apply delete_run].
    rewrite delete_tasks. destruct (db_tasks_delete e _); [|reflexivity].
    apply forallb_filter_id, forallb_forall. intros x Hx.
    apply negb_true_iff, eqb_neq. intros E. apply Hk. rewrite <- E.
    now apply in_map.
  - intros Ht. cbv zeta. split; [|apply (@edit_run e w task Ht)].
    rewrite (@edit_tasks e w task Ht).
    destruct (db_tasks_update e _ _); [|reflexivity].
    apply (@map_absent _ _ _ Hk). intros x Hx. unfold edited.
    apply eqb_neq in Hx. now rewrite Hx.
Qed.

Lemma absent_id_changes_nothing_witness :
  tasks (run (deleteTask (env_at 0) (str "task_0")) two_tasks)
  = [buy_milk; walk_dog].
Proof.
  refine (proj1 (proj1 (proj2
            (@absent_id_changes_nothing (env_at 0) two_tasks
               (mkTask (str "task_0") [] [] None 0 None 0 None [] []) _)))).
  vm_compute. intuition discriminate.
Defined.

Lemma toggle_changes_only_completed_ids (e : Env) (w : World) (task : Task) :
  map id (tasks (run (toggleTaskCompletion e task) w)) = map id (tasks w).
Proof.
  rewrite toggle_tasks. destruct (db_tasks_update e _ _); [|reflexivity].
  rewrite map_map. apply map_ext. intros t. unfold toggled.
  now destruct (JS.eqb (id t) (id task)).
Qed.

Lemma edit_keeps_ids (e : Env) (w : World) :
  map id (tasks (run (saveTaskEdit e) w)) = map id (tasks w).
Proof.
  destruct (editingTask w) as [t|] eqn:Ht.
  - rewrite (@edit_tasks e w t Ht).
    destruct (db_tasks_update e _ _); [|reflexivity].
    rewrite map_map. apply map_ext. intros x. unfold edited.
    now destruct (JS.eqb (id x) (id t)).
  - handler. now rewrite Ht.
Qed.

Lemma NoDup_filter_map (f : Task -> bool) (l : list Task) :
  NoDup (map id l) -> NoDup (map id (filter f l)).
Proof.
  induction l as [|x l IH]; simpl; [auto|].
  intros Hn. inversion Hn as [|? ? Hx Hn']; subst.
  destruct (f x); simpl; [|auto].
  constructor; [|auto]. intros Hin. apply Hx.
  apply in_map_iff in Hin. destruct Hin as (y & <- & Hy).
  apply in_map. now apply filter_In in Hy.
Qed.

(** X20. Unique ids stay unique: a toggle, an edit and a delete, accepted
    or not, never change the ids of the records they keep, so a list
    without duplicate ids has none afterwards; after an accepted creation
    the list has none exactly when the id of the returned record was not
    there before. *)
Theorem unique_ids_are_kept (e : Env) (w : World) :
  NoDup (map id (tasks w)) ->
  (forall task, NoDup (map id (tasks (run (toggleTaskCompletion e task) w)))) /\
  NoDup (map id (tasks (run (saveTaskEdit e) w))) /\
  (forall k, NoDup (map id (tasks (run (deleteTask e k) w)))) /\
  (forall text u newTask,
      user w = Some u ->
      db_tasks_create e (draft_of e (uid u) text) = Ok newTask ->
      (NoDup (map id (tasks (run (createTaskFromTranscription e text) w)))
       <-> ~ In (id newTask) (map id (tasks w)))).
Proof.
  intros Hn. split; [|split; [|split]].
  - intros task.
    rewrite toggle_changes_only_completed_ids. exact Hn.
  - rewrite edit_keeps_ids. exact Hn.
  - intros k. rewrite delete_tasks.
    destruct (db_tasks_delete e k); [|exact Hn]. now apply NoDup_filter_map.
  - intros text u newTask Hu Hc. rewrite create_tasks, Hu, Hc. cbn [map].
    split.
    + intros H. now inversion H.
    + intros H. now constructor.
Qed.

Lemma unique_ids_are_kept_witness :
  NoDup (map id (tasks (run (deleteTask (env_at 0) (id buy_milk)) two_tasks))).
Proof.
  refine (proj1 (proj2 (proj2 (@unique_ids_are_kept (env_at 0) two_tasks _)))
            (id buy_milk)).
  repeat constructor; vm_compute; intuition discriminate.
Defined.

(** X21. Creating a task and deleting it again by the id of the returned
    record (both accepted) gives back the list as it was, provided that
    id was not already in the list. *)
Theorem create_then_delete_restores_list
  (e1 e2 : Env) (w : World) (u : User) (text : jsstring) (newTask : Task) :
  user w = Some u ->
  db_tasks_create e1 (draft_of e1 (uid u) text) = Ok newTask ->
  db_tasks_delete e2 (id newTask) = Ok tt ->
  ~ In (id newTask) (map id (tasks w)) ->
  tasks (run (deleteTask e2 (id newTask))
           (run (createTaskFromTranscription e1 text) w))
  = tasks w.
Proof.
  intros Hu Hc Hd Hk. rewrite delete_tasks, Hd, create_tasks, Hu, Hc.
  cbn [filter]. rewrite eqb_refl. cbn.
  apply forallb_filter_id, forallb_forall. intros x Hx.
  apply negb_true_iff, eqb_neq. intros E. apply Hk. rewrite <- E.
  now apply in_map.
Qed.

Lemma create_then_delete_restores_list_witness :
  tasks (run (deleteTask (env_at 1) (str "task_5"))
           (run (createTaskFromTranscription (env_at 5) (str "call mum"))
              two_tasks))
  = [buy_milk; walk_dog].
Proof.
  refine (@create_then_delete_restores_list (env_at 5) (env_at 1) two_tasks
            alice (str "call mum")
            (draft_of (env_at 5) (uid alice) (str "call mum"))
            eq_refl eq_refl eq_refl _).
  vm_compute. intuition discriminate.
Defined.

(** X22. [addSampleTask] asks for a task whose title is one of the eight
    sample titles (the random index being below eight), not completed,
    without deadline or reminder, owned by the signed-in user and with the
    id made from the clock; the record returned becomes the first of the
    list. *)
Theorem sample_task_is_a_sample (e : Env) (w : World) (u : User) :
  user w = Some u ->
  (Math_random_index e 8 < 8)%nat ->
  let w' := run (addSampleTask e) w in
  exists draft,
    calls w' = calls w ++ [DbCreate draft] /\
    In (title draft) sampleTasks /\
    completed draft = 0 /\ deadline draft = None /\
    reminder_enabled draft = 0 /\ user_id draft = uid u /\
    id draft = task_id (Date_now e 0%nat) /\
    forall newTask, db_tasks_create e draft = Ok newTask ->
                    tasks w' = newTask :: tasks w.
Proof.
  intros Hu Hr w'.
  destruct (@sample_run e w u Hu) as (C & _ & R). fold w' in C, R.
  eexists. split; [exact C|]. unfold draft_of at 1. cbn [title].
  split; [apply nth_In; exact Hr|]. repeat (split; [reflexivity|]).
  intros newTask Hn. cbv zeta in R. rewrite Hn in R. apply R.
Qed.

Lemma sample_task_is_a_sample_witness :
  exists t,
    tasks (run (addSampleTask (env_at 0)) two_tasks) = t :: tasks two_tasks /\
    In (title t) sampleTasks.
Proof.
  destruct (@sample_task_is_a_sample (env_at 0) two_tasks alice eq_refl)
    as (draft & _ & Hin & _ & _ & _ & _ & _ & H).
  - simpl. lia.
  - exists draft. split; [exact (H draft eq_refl) | exact Hin].
Defined.

(** ** What no handler does *)

(** X23. No handler lets an exception escape: whatever the environment
    answers and whatever the state, every handler of the component
    returns normally. *)
Theorem handlers_never_throw (e : Env) (w : World) :
  fst (loadTasks e w) = Ok tt /\
  fst (startRecording e w) = Ok tt /\
  fst (stopRecording e w) = Ok tt /\
  fst (recordButton_onPress e w) = Ok tt /\
  (forall uri, fst (transcribeAudioFromFile e uri w) = Ok tt) /\
  (forall audio, fst (transcribeAudio e audio w) = Ok tt) /\
  fst (reader_onload e w) = Ok tt /\
  (forall text, fst (createTaskFromTranscription e text w) = Ok tt) /\
  fst (addSampleTask e w) = Ok tt /\
  (forall task, fst (toggleTaskCompletion e task w) = Ok tt) /\
  (forall k, fst (deleteTask e k w) = Ok tt) /\
  fst (saveTaskEdit e w) = Ok tt.
Proof.
  repeat split; intros; by_cases_of_run; reflexivity.
Qed.

(** X24. The store handlers and the pipeline from the transcription on
    never touch the recording controller: its flags, cells, timers,
    sessions, recorders and handle counter are as before. *)
Theorem store_handlers_keep_controller (e : Env) (w : World) :
  (forall task, controller (run (toggleTaskCompletion e task) w)
                = controller w) /\
  (forall k, controller (run (deleteTask e k) w) = controller w) /\
  controller (run (saveTaskEdit e) w) = controller w /\
  controller (run (addSampleTask e) w) = controller w /\
  controller (run (loadTasks e) w) = controller w /\
  (forall t, controller (run (openEditModal t) w) = controller w) /\
  (forall text, controller (run (createTaskFromTranscription e text) w)
                = controller w) /\
  (forall audio, controller (run (transcribeAudio e audio) w)
                 = controller w) /\
  (forall uri, controller (run (transcribeAudioFromFile e uri) w)
               = controller w).
Proof.
  unfold controller. repeat split; intros; by_cases_of_run; reflexivity.
Qed.

(** X25. What [stopRecording] tells the user on a device that holds a
    recording. A failed finalization shows the one "Failed to process
    recording" alert, sends nothing, and leaves the recording cell set.
    A finalization that yields no file is silent: nothing shown, nothing
    sent, the cell emptied. With a file, exactly one alert is shown,
    however the rest of the pipeline goes, and the cell is emptied. *)
Theorem native_stop_feedback (e : Env) (w : World) (r : nat) :
  Platform_OS e = native ->
  recording w = Some r ->
  let w' := run (stopRecording e) w in
  (forall err,
      recording_stopAndUnloadAsync e = Throw err ->
      alerts w' = alerts w ++
        [(str "Error",
          str "Failed to process recording. Please try again.")] /\
      calls w' = calls w /\ recording w' = Some r /\
      sessions w' = sessions w) /\
  (recording_stopAndUnloadAsync e = Ok tt ->
   recording_getURI e = None \/ recording_getURI e = Some [] ->
   alerts w' = alerts w /\ calls w' = calls w /\ recording w' = None /\
   sessions w' = remove_handle r (sessions w)) /\
  (recording_stopAndUnloadAsync e = Ok tt ->
   forall uri,
     recording_getURI e = Some uri -> uri <> [] ->
     List.length (alerts w') = S (List.length (alerts w)) /\
     recording w' = None /\
     sessions w' = remove_handle r (sessions w)).
Proof.
  intros Hp Hr. cbv zeta. split; [|split].
  - intros err Hs. handler. rewrite Hp, Hr. cbn.
    destruct (recordingTimer w); cbn; rewrite Hs; cbn; auto.
  - intros Hs Hg. handler. rewrite Hp, Hr. cbn.
    destruct (recordingTimer w); cbn; rewrite Hs; cbn;
      destruct Hg as [-> | ->]; cbn; auto.
  - intros Hs uri Hg Hne. apply truthy_string_true in Hne.
    unfold run. remember (stopRecording e w) as p eqn:E.
    autounfold with handlers in E. rewrite Hp in E. cbn in E.
    rewrite Hr in E. cbn in E.
    destruct (recordingTimer w); cbn in E; rewrite Hs in E; cbn in E;
      rewrite Hg, Hne in E; branch_in E; subst p; cbn;
      rewrite length_app; cbn; repeat split; lia.
Qed.

Lemma native_stop_feedback_witness :
  List.length (alerts (run (stopRecording (env_pipeline 0)) recording_world))
  = 1%nat.
Proof.
  refine (proj1 (proj2 (proj2 (@native_stop_feedback (env_pipeline 0)
                                 recording_world 0%nat eq_refl eq_refl))
                   eq_refl (str "file:///rec.wav") eq_refl _)).
  vm_compute. discriminate.
Defined.

(** ** The earlier revision, further *)

Lemma legacy_stop_tasks (e : Env) (w : World) :
  tasks (run (Legacy.stopRecording e) w) =
  match recording w, recording_stopAndUnloadAsync e, recording_getURI e with
  | Some _, Ok _, Some uri =>
      if truthy_string uri then tasks (run (transcribeAudioFromFile e uri) w)
      else tasks w
  | _, _, _ => tasks w
  end.
Proof.
  handler. branch; reflexivity.
Qed.

(** X26. The earlier revision's [stopRecording] does nothing at all
    without a recording, whatever the flags; with one, on a device, it
    leaves the same task list as the current revision does. *)
Theorem legacy_stop_agrees (e : Env) (w : World) :
  (recording w = None -> Legacy.stopRecording e w = (Ok tt, w)) /\
  (Platform_OS e = native ->
   tasks (run (Legacy.stopRecording e) w) = tasks (run (stopRecording e) w)).
Proof.
  split.
  - intros Hr. unfold Legacy.stopRecording, bind, gets, ret. now rewrite Hr.
  - intros Hp. rewrite legacy_stop_tasks, stop_tasks, Hp. reflexivity.
Qed.

Lemma legacy_stop_agrees_witness :
  Legacy.stopRecording (env_at 0) two_tasks = (Ok tt, two_tasks) /\
  tasks (run (Legacy.stopRecording (env_pipeline 1700000000000))
           recording_world)
  = tasks (run (stopRecording (env_pipeline 1700000000000)) recording_world).
Proof.
  split.
  - exact (proj1 (legacy_stop_agrees (env_at 0) two_tasks) eq_refl).
  - exact (proj2 (legacy_stop_agrees (env_pipeline 1700000000000)
                    recording_world) eq_refl).
Defined.

(** ** Views and titles *)

(** X27. The main screen, which holds every control, renders only when
    loading is over and a user is present; a creation started from it
    therefore never fails on [user.id]: it always reaches the service,
    with the user's id as owner. *)
Theorem main_screen_creation_reaches_service
  (a : App) (e : Env) (text : jsstring) :
  screen a = MainScreen ->
  exists u,
    isLoading a = false /\ user (component a) = Some u /\
    calls (run (createTaskFromTranscription e text) (component a)) =
      calls (component a) ++ [DbCreate (draft_of e (uid u) text)] /\
    calls (run (addSampleTask e) (component a)) =
      calls (component a) ++
      [DbCreate (draft_of e (uid u)
                   (nth (Math_random_index e 8) sampleTasks []))].
Proof.
  unfold screen. destruct (isLoading a); [discriminate|].
  destruct (user (component a)) as [u|] eqn:Hu; [|discriminate].
  intros _. exists u. split; [reflexivity|]. split; [reflexivity|]. split.
  - now apply create_calls.
  - now apply sample_run.
Qed.

Lemma main_screen_creation_reaches_service_witness :
  exists u,
    isLoading (mkApp false two_tasks) = false /\
    user two_tasks = Some u /\
    calls (run (createTaskFromTranscription (env_at 0) []) two_tasks) =
      calls two_tasks ++ [DbCreate (draft_of (env_at 0) (uid u) [])] /\
    calls (run (addSampleTask (env_at 0)) two_tasks) =
      calls two_tasks ++
      [DbCreate (draft_of (env_at 0) (uid u)
                   (nth (Math_random_index (env_at 0) 8) sampleTasks []))].
Proof.
  exact (@main_screen_creation_reaches_service (mkApp false two_tasks)
           (env_at 0) [] eq_refl).
Defined.








(** X29. In the earlier revision the main button never records in the
    browser: a press there runs [addSampleTask] (or nothing while
    transcribing), and neither the press nor [startRecording] itself
    touches the recording controller; [startRecording] only shows its
    "not available on web" alert. *)
Theorem legacy_web_button_never_records (e : Env) (w : World) :
  Platform_OS e = web ->
  controller (run (Legacy.recordButton_onPress e) w) = controller w /\
  (isTranscribing w = false ->
   Legacy.recordButton_onPress e w = Legacy.addSampleTask e w) /\
  controller (run (Legacy.startRecording e) w) = controller w /\
  alerts (run (Legacy.startRecording e) w) =
    alerts w ++
    [(str "Web Recording",
      str "Voice recording is not available on web. Please use the mobile app.")].
Proof.
  intros Hp. split; [|split; [|split]].
  - assert (S : controller (run (Legacy.addSampleTask e) w) = controller w).
    { unfold controller. by_cases_of_run; reflexivity. }
    unfold run in *. unfold Legacy.recordButton_onPress, bind, gets, ret.
    rewrite Hp. destruct (isTranscribing w); [reflexivity | exact S].
  - intros Ht. unfold Legacy.recordButton_onPress, bind, gets, ret.
    now rewrite Ht, Hp.
  - unfold controller. handler. now rewrite Hp.
  - handler. now rewrite Hp.
Qed.

Lemma legacy_web_button_never_records_witness :
  controller (run (Legacy.recordButton_onPress (env_browser 0)) two_tasks)
  = controller two_tasks.
Proof.
  exact (proj1 (@legacy_web_button_never_records (env_browser 0) two_tasks
                  eq_refl)).
Defined.
